(** * humannotator: the annotation session engine

    A shallow embedding of [humannotator/data/data.py] (the data
    adapters and their registry) and of [humannotator/humannotator.py]
    (the [Annotator] session object: its call, its pickling hooks and
    [save]/[load]), followed by the properties of the session engine.

    Python objects are modelled by their attribute dictionary, Python
    dictionaries with string keys by [gmap string _], insertion-ordered
    dictionaries whose order is observable by association lists, and
    exceptions by an explicit result type. *)

From stdpp Require Import base option list gmap strings.

Open Scope string_scope.
Open Scope list_scope.

(** ** Exceptions and results *)

Inductive Exn :=
  | AttributeError
  | KeyError
  | TypeError
  | FileNotFoundError
  | UnpicklingError
  | Unsupported.   (* Python behaviour that lies outside of this model *)

Inductive Result (A : Type) :=
  | Ok (a : A)
  | Raise (e : Exn).
Arguments Ok {A} a.
Arguments Raise {A} e.

#[global] Instance Result_ret : MRet Result := λ A a, Ok a.

#[global] Instance Result_bind : MBind Result := λ A B k r,
  match r with
  | Ok a => k a
  | Raise e => Raise e
  end.

(** ** Scalars, identifiers and tables *)

(** The hashable scalars that serve as item identifiers, as cells of a
    table and as items of a collection.  Python's [bool] is a subclass of
    [int] ([True == 1], with equal hashes), so [True] and [False] are the
    integers 1 and 0. *)
Inductive Scalar :=
  | SNone
  | SInt (n : Z)
  | SStr (s : string).

#[global] Instance Scalar_eq_dec : EqDecision Scalar.
Proof. solve_decision. Defined.

Abbreviation Id := Scalar (only parsing).

(** A pandas DataFrame: named columns and rows, each row carrying its
    label (the entry of the index) and one cell per column. *)
Record DataFrame := {
  columns : list string;
  rows : list (Id * list Scalar)
}.

#[global] Instance DataFrame_eq_dec : EqDecision DataFrame.
Proof. solve_decision. Defined.

(** [df.index] *)
Definition index (df : DataFrame) : list Id := (rows df).*1.

(** [len(df)] *)
Definition frame_len (df : DataFrame) : nat := length (rows df).

(** Position of the first column called [col]. *)
Definition column_pos (col : string) (df : DataFrame) : option nat :=
  fst <$> list_find (λ c, c = col) (columns df).

(** [df.set_index(col)]: the cells of column [col] become the labels and
    the column is dropped; an unknown column raises [KeyError]. *)
Definition set_index (col : string) (df : DataFrame) : Result DataFrame :=
  match column_pos col df with
  | None => Raise KeyError
  | Some j =>
      Ok {| columns := delete j (columns df);
            rows := (λ r, (default SNone (r.2 !! j), delete j r.2))
                      <$> rows df |}
  end.

(** The cells of one row under the columns [cols]; a column that the
    frame does not have raises [KeyError]. *)
Fixpoint select (df : DataFrame) (cells : list Scalar) (cols : list string)
    : Result (list (string * Scalar)) :=
  match cols with
  | [] => Ok []
  | c :: cols' =>
      match column_pos c df with
      | None => Raise KeyError
      | Some j =>
          rest ← select df cells cols';
          Ok ((c, default SNone (cells !! j)) :: rest)
      end
  end.

Fixpoint select_rows (df : DataFrame) (rs : list (list Scalar))
    (cols : list string) : Result (list (list (string * Scalar))) :=
  match rs with
  | [] => Ok []
  | r :: rs' =>
      x ← select df r cols;
      xs ← select_rows df rs' cols;
      Ok (x :: xs)
  end.

(** [df.loc[id, cols]]: the rows labelled [id], restricted to [cols].  A
    label that is not in the index raises [KeyError]. *)
Definition loc (df : DataFrame) (id : Id) (cols : list string)
    : Result (list (list (string * Scalar))) :=
  match filter (λ r, r.1 = id) (rows df) with
  | [] => Raise KeyError
  | r :: rs => select_rows df ((r :: rs).*2) cols
  end.

(** ** Keyword arguments *)

Inductive KwVal :=
  | KNone
  | KBool (b : bool)
  | KInt (n : Z)
  | KStr (s : string)
  | KStrs (l : list string).

#[global] Instance KwVal_eq_dec : EqDecision KwVal.
Proof. solve_decision. Defined.

Abbreviation Kwargs := (gmap string KwVal) (only parsing).

(** Python truthiness of a keyword value. *)
Definition kw_truthy (v : KwVal) : bool :=
  match v with
  | KNone => false
  | KBool b => b
  | KInt n => bool_decide (n ≠ 0%Z)
  | KStr s => bool_decide (s ≠ "")
  | KStrs l => bool_decide (l ≠ [])
  end.

(** ** Input collections and their runtime shape *)

(** The values a caller may hand over as data.  [PyFrameSeq] is an
    instance of a class that derives from [pd.DataFrame] and is also a
    [collections.abc.Sequence] (by inheritance or [Sequence.register]);
    a plain [pd.DataFrame] is neither a [Sequence] nor a [Mapping]. *)
Inductive RawData :=
  | PyList (l : list Scalar)
  | PyTuple (l : list Scalar)
  | PyDict (d : list (Id * Scalar))
  | PyDataFrame (df : DataFrame)
  | PyFrameSeq (df : DataFrame)
  | PySeries (labels : list Id) (values : list Scalar)
  | PyScalar (s : Scalar).

#[global] Instance RawData_eq_dec : EqDecision RawData.
Proof. solve_decision. Defined.

(** The three types the adapters register under. *)
Inductive Kind :=
  | Sequence
  | Mapping
  | pd_DataFrame.

#[global] Instance Kind_eq_dec : EqDecision Kind.
Proof. solve_decision. Defined.

(** [isinstance(data, kind)] *)
Definition isinstance (data : RawData) (k : Kind) : bool :=
  match k, data with
  | Sequence, (PyList _ | PyTuple _ | PyFrameSeq _ | PyScalar (SStr _)) => true
  | Mapping, PyDict _ => true
  | pd_DataFrame, (PyDataFrame _ | PyFrameSeq _) => true
  | _, _ => false
  end.

(** [len(data)] *)
Definition py_len (data : RawData) : Result nat :=
  match data with
  | PyList l | PyTuple l => Ok (length l)
  | PyDict d => Ok (length d)
  | PyDataFrame df | PyFrameSeq df => Ok (frame_len df)
  | PySeries ls _ => Ok (length ls)
  | PyScalar (SStr s) => Ok (String.length s)
  | PyScalar _ => Raise TypeError
  end.

(** [list(range(0, n))] *)
Definition range (n : nat) : list Id := (λ i, SInt (Z.of_nat i)) <$> seq 0 n.

(** ** data.py: the data adapters *)

(** An adapter object, given by the attributes its constructor stores:
    [data], [ids] and [items] for the first two variants and [data],
    [item_cols] and [ids] for the tabular one.  ([Data.__init__] stores
    [data.copy()], or [data] itself where there is no [copy]; both are
    the same value.)  The [ids] and [items] of the keyed variant are
    the views [data.keys()] and [data.values()] of the dictionary, each
    given by what it shows at the time of construction; the [ids] of the
    sequential variant are a list and those of the tabular variant the
    index of its frame. *)
Inductive Data :=
  | Data_List (data : RawData) (ids : list Id) (items : RawData)
  | Data_Dict (data : RawData) (ids : list Id) (items : list Scalar)
  | Data_DataFrame (data : DataFrame) (item_cols : list string) (ids : list Id).

#[global] Instance Data_eq_dec : EqDecision Data.
Proof. solve_decision. Defined.

(** The attribute [ids] of an adapter. *)
Definition ids_of (d : Data) : list Id :=
  match d with
  | Data_List _ ids _ | Data_Dict _ ids _ | Data_DataFrame _ _ ids => ids
  end.

(** [Data.__len__] *)
Definition Data__len__ (d : Data) : nat := length (ids_of d).

(** The adapter classes, and the attribute [kind] of each. *)
Inductive DataClass :=
  | cls_Data_List
  | cls_Data_Dict
  | cls_Data_DataFrame.

#[global] Instance DataClass_eq_dec : EqDecision DataClass.
Proof. solve_decision. Defined.

Definition kind (cls : DataClass) : Kind :=
  match cls with
  | cls_Data_List => Sequence
  | cls_Data_Dict => Mapping
  | cls_Data_DataFrame => pd_DataFrame
  end.

(** [d[k] = v] on an insertion-ordered dictionary: a known key keeps its
    position, a new key goes to the end. *)
Fixpoint dict_set {K V} `{EqDecision K} (k : K) (v : V) (d : list (K * V))
    : list (K * V) :=
  match d with
  | [] => [(k, v)]
  | (k', v') :: d' =>
      if decide (k' = k) then (k, v) :: d' else (k', v') :: dict_set k v d'
  end.

(** [register]: [registry[cls.kind] = cls]. *)
Definition register (cls : DataClass) (registry : list (Kind * DataClass))
    : list (Kind * DataClass) :=
  dict_set (kind cls) cls registry.

(** The registry once the module is loaded: the three [@register]
    decorators run in the order of the class definitions. *)
Definition registry : list (Kind * DataClass) :=
  register cls_Data_DataFrame (register cls_Data_Dict (register cls_Data_List [])).

(** A call [cls(data, **kwargs)] of a constructor that takes no keyword
    but [allowed] raises [TypeError] on any other. *)
Definition accepts (allowed : list string) (kwargs : Kwargs) : bool :=
  bool_decide (dom kwargs ⊆ list_to_set allowed).

(** [Data_List.__init__] *)
Definition Data_List__init__ (data : RawData) : Result Data :=
  n ← py_len data;
  Ok (Data_List data (range n) data).

(** [Data_Dict.__init__]: [data.keys()] and [data.values()], the two
    views of the dictionary, which the adapter keeps as they are (see
    [Data_ids] and [pickles]).  A frame or a series has [keys()], but
    its [values] is an array and not callable; a list, a tuple or a
    scalar has no [keys]. *)
Definition Data_Dict__init__ (data : RawData) : Result Data :=
  match data with
  | PyDict d => Ok (Data_Dict data d.*1 d.*2)
  | PyDataFrame _ | PyFrameSeq _ | PySeries _ _ => Raise TypeError
  | PyList _ | PyTuple _ | PyScalar _ => Raise AttributeError
  end.

(** [Data_DataFrame.__init__].  The labels of the frames of this model
    are strings: another truthy [id_col] names no column, and a list of
    columns as [id_col] (a MultiIndex) or a [item_cols] that is neither
    a string nor a list of strings is not modelled. *)
Definition Data_DataFrame__init__ (data : DataFrame)
    (item_cols id_col : KwVal) : Result Data :=
  self_data ←
    (if kw_truthy id_col then
       match id_col with
       | KStr col => set_index col data
       | KStrs _ => Raise Unsupported
       | _ => Raise KeyError
       end
     else Ok data);
  item_cols ←
    (if negb (kw_truthy item_cols) then Ok (columns data)
     else
       match item_cols with
       | KStrs l => Ok l
       | KStr s => Ok [s]
       | _ => Raise Unsupported
       end);
  Ok (Data_DataFrame self_data item_cols (index self_data)).

(** [Data_DataFrame.__getitem__]: [self.data.loc[id, self.item_cols]].
    The other two variants define no [__getitem__]. *)
Definition __getitem__ (self : Data) (id : Id)
    : Result (list (list (string * Scalar))) :=
  match self with
  | Data_DataFrame data item_cols _ => loc data id item_cols
  | _ => Raise TypeError
  end.

(** [cls(data, **kwargs)] *)
Definition construct (cls : DataClass) (data : RawData) (kwargs : Kwargs)
    : Result Data :=
  match cls with
  | cls_Data_List =>
      if accepts [] kwargs then Data_List__init__ data else Raise TypeError
  | cls_Data_Dict =>
      if accepts [] kwargs then Data_Dict__init__ data else Raise TypeError
  | cls_Data_DataFrame =>
      if accepts ["item_cols"; "id_col"] kwargs then
        match data with
        | PyDataFrame df | PyFrameSeq df =>
            Data_DataFrame__init__ df
              (default KNone (kwargs !! "item_cols"))
              (default KNone (kwargs !! "id_col"))
        | _ => Raise Unsupported
        end
      else Raise TypeError
  end.

(** [load_data]: the loop over [registry.values()]; falling off the end
    of the loop returns [None]. *)
Fixpoint load_data_from (classes : list DataClass) (data : RawData)
    (kwargs : Kwargs) : Result (option Data) :=
  match classes with
  | [] => Ok None
  | cls :: classes' =>
      if isinstance data (kind cls) then
        d ← construct cls data kwargs; Ok (Some d)
      else load_data_from classes' data kwargs
  end.

Definition load_data (data : RawData) (kwargs : Kwargs) : Result (option Data) :=
  load_data_from registry.*2 data kwargs.

(** ** Tasks and the annotation ledger *)

Inductive TaskKind :=
  | kind_str
  | kind_int
  | kind_bool
  | kind_choice (choices : list string).

(** Modelled from the spec: the task definitions ([humannotator.core] is
    not part of the sources at hand): a name, a kind, the nullability
    flag, an optional default and an instruction. *)
Record Task := {
  task_name : string;
  task_kind : TaskKind;
  task_nullable : bool;
  task_default : option Scalar;
  task_instruction : string
}.

(** Modelled from the spec: the [Annotations] object of
    [humannotator.core.annotations], which is not part of the sources at
    hand: the tasks and the ledger [data], a table with one row per
    annotated id and one column per task. *)
Module Annotations.

Record t := {
  tasks : list Task;
  data : DataFrame
}.

(** [Annotations(tasks)]: an empty ledger. *)
Definition new (tasks : list Task) : t :=
  {| tasks := tasks;
     data := {| columns := task_name <$> tasks; rows := [] |} |}.

(** The kind of the task inferred from the cells of a column. *)
Definition infer_kind (cells : list Scalar) : TaskKind :=
  if forallb (λ c, match c with SStr _ => false | _ => true end) cells
  then kind_int else kind_str.

(** [Annotations.from_df(df)]: a task per column, and the cells of the
    table seed the ledger. *)
Definition from_df (df : DataFrame) : t :=
  {| tasks :=
       imap (λ j c,
               {| task_name := c;
                  task_kind :=
                    infer_kind ((λ r, default SNone (r.2 !! j)) <$> rows df);
                  task_nullable := true;
                  task_default := None;
                  task_instruction := "" |})
            (columns df);
     data := df |}.

(** [has(id)]: a row exists for [id]. *)
Definition has (a : t) (id : Id) : bool := bool_decide (id ∈ index (data a)).

(** [upsert(id, answers)]: writes the full row of [id], in place when
    the row exists and at the end otherwise. *)
Definition upsert (id : Id) (answers : list Scalar) (a : t) : t :=
  {| tasks := tasks a;
     data := {| columns := columns (data a);
                rows := dict_set id answers (rows (data a)) |} |}.

End Annotations.

(** ** Python objects *)

(** The values held by the attributes of an annotator.  [OList l] is a
    list of ids, or the index of a frame; [OKeys l] is a [dict_keys]
    view, the object that [data.keys()] returns, given by the keys it
    shows. *)
Inductive PyObj :=
  | ONone
  | OBool (b : bool)
  | OInt (n : Z)
  | OStr (s : string)
  | OList (l : list Id)
  | OKeys (l : list Id)
  | ODict (d : Kwargs)
  | OData (d : Data)
  | OAnnotations (a : Annotations.t).

(** An object is its attribute dictionary [__dict__]. *)
Abbreviation Obj := (gmap string PyObj) (only parsing).

(** Truthiness.  [Data] defines [__len__], so an adapter without ids is
    falsy. *)
Definition py_truthy (v : PyObj) : bool :=
  match v with
  | ONone => false
  | OBool b => b
  | OInt n => bool_decide (n ≠ 0%Z)
  | OStr s => bool_decide (s ≠ "")
  | OList l | OKeys l => bool_decide (l ≠ [])
  | ODict d => bool_decide (d ≠ ∅)
  | OData d => bool_decide (Data__len__ d ≠ 0)
  | OAnnotations _ => true
  end.

(** An optional string argument as a Python value. *)
Definition of_user (user : option string) : PyObj :=
  match user with
  | None => ONone
  | Some u => OStr u
  end.

(** [obj.name] *)
Definition attr (self : Obj) (name : string) : Result PyObj :=
  match self !! name with
  | Some v => Ok v
  | None => Raise AttributeError
  end.

(** The attribute [ids] of an adapter as an object: the keyed adapter
    keeps the view [data.keys()], the other two a list and an index. *)
Definition Data_ids (d : Data) : PyObj :=
  match d with
  | Data_Dict _ ids _ => OKeys ids
  | Data_List _ ids _ | Data_DataFrame _ _ ids => OList ids
  end.

(** The ids that an object yields when it is iterated over.  A call
    iterates over a list, an index or a view of keys only. *)
Definition iter_ids (o : PyObj) : Result (list Id) :=
  match o with
  | OList l | OKeys l => Ok l
  | ONone | OBool _ | OInt _ => Raise TypeError
  | _ => Raise Unsupported
  end.

(** What [pickle] takes: it raises [TypeError] on a [dict_keys] and on a
    [dict_values] view, and so on a keyed adapter, which holds one of
    each. *)
Definition pickles (v : PyObj) : bool :=
  match v with
  | OKeys _ | OData (Data_Dict _ _ _) => false
  | _ => true
  end.

(** A state that [pickle] can write: none of its attributes is or holds
    a view of a dictionary. *)
Definition state_pickles (state : gmap string PyObj) : Prop :=
  map_Forall (λ _ v, pickles v = true) state.

(** ** humannotator.py: construction and pickling of an [Annotator] *)

(** The [tasks] argument: task definitions, or a table to infer them
    from. *)
Inductive TasksArg :=
  | TasksList (tasks : list Task)
  | TasksFrame (df : DataFrame).

(** The [data] argument: [None], an adapter, or a raw collection. *)
Inductive DataArg :=
  | NoData
  | AdapterData (d : Data)
  | RawInput (raw : RawData).

(** The setter of the property [annotations]. *)
Definition annotations_setter (tasks : TasksArg) (self : Obj) : Obj :=
  match tasks with
  | TasksFrame df => <["_annotations" := OAnnotations (Annotations.from_df df)]> self
  | TasksList l => <["_annotations" := OAnnotations (Annotations.new l)]> self
  end.

(** The setter of the property [data]. *)
Definition data_setter (data : DataArg) (self : Obj) : Result Obj :=
  match data with
  | NoData => Ok (<["_data" := ONone]> self)
  | RawInput raw =>
      k ← attr self "kwargs";
      match k with
      | ODict kwargs =>
          d ← load_data raw kwargs;
          Ok (<["_data" := from_option OData ONone d]> self)
      | _ => Raise TypeError
      end
  | AdapterData d => Ok (<["_data" := OData d]> self)
  end.

(** [Annotator.__init__] *)
Definition __init__ (tasks : TasksArg) (data : DataArg) (user : option string)
    (name : string) (save_data : bool) (kwargs : Kwargs) : Result Obj :=
  let self : Obj := ∅ in
  let self := <["kwargs" := ODict kwargs]> self in
  let self := <["user" := of_user user]> self in
  let self := <["name" := OStr name]> self in
  let self := annotations_setter tasks self in
  self ← data_setter data self;
  Ok (<["save_data" := OBool save_data]> self).

(** The property [annotated]: [self.annotations.data]. *)
Definition annotated (self : Obj) : Result DataFrame :=
  a ← attr self "_annotations";
  match a with
  | OAnnotations a => Ok (Annotations.data a)
  | _ => Raise AttributeError
  end.

(** The tasks of the session. *)
Definition tasks_of (self : Obj) : Result (list Task) :=
  a ← attr self "_annotations";
  match a with
  | OAnnotations a => Ok (Annotations.tasks a)
  | _ => Raise AttributeError
  end.

(** [Annotator.__getstate__]: a copy of [__dict__], without ['_data']
    unless [save_data] is set. *)
Definition __getstate__ (self : Obj) : Result Obj :=
  let state := self in
  save_data ← attr self "save_data";
  if negb (py_truthy save_data) then
    match state !! "_data" with
    | Some _ => Ok (delete "_data" state)
    | None => Raise KeyError
    end
  else Ok state.

(** [Annotator.__setstate__] *)
Definition __setstate__ (self : Obj) (state : Obj) : Obj :=
  let state :=
    if bool_decide ("_data" ∈ dom state) then state
    else <["_data" := ONone]> state in
  state ∪ self.

(** [save] and [load] go through [pickle], which writes the class of the
    object and the state that [__getstate__] returns, and on loading
    creates an object without attributes and hands the state to
    [__setstate__].  The byte format is left open: [dumps] and [loads]
    are any pair of a serialiser and a parser of states.  A state that
    holds a view of a dictionary is refused with [TypeError]. *)
Section Pickle.

Context {Blob : Type}.
Variable dumps : Obj → Blob.
Variable loads : Blob → option Obj.

Definition pickle_dump (self : Obj) : Result Blob :=
  state ← __getstate__ self;
  if bool_decide (state_pickles state) then Ok (dumps state)
  else Raise TypeError.

Definition pickle_load (b : Blob) : Result Obj :=
  match loads b with
  | Some state => Ok (__setstate__ ∅ state)
  | None => Raise UnpicklingError
  end.

(** [Annotator.save], on a file system [fs].  (When [pickle.dump]
    raises, the file is already opened for writing; what it then holds
    is left open: a failed [save] yields no file system here.) *)
Definition save (self : Obj) (filename : string) (fs : gmap string Blob)
    : Result (gmap string Blob) :=
  b ← pickle_dump self;
  Ok (<[filename := b]> fs).

(** [Annotator.load] *)
Definition load (filename : string) (fs : gmap string Blob) : Result Obj :=
  match fs !! filename with
  | Some b => pickle_load b
  | None => Raise FileNotFoundError
  end.

End Pickle.

(** ** humannotator.py: running the annotator *)

(** What is shown for an item: for each matching row, its labelled
    values. *)
Abbreviation Fields := (list (list (string * Scalar))) (only parsing).

(** The item at a position of a sequence. *)
Definition item_at (items : RawData) (n : nat) : option Scalar :=
  match items with
  | PyList l | PyTuple l => l !! n
  | PyScalar (SStr s) => (λ c, SStr (String c "")) <$> String.get n s
  | _ => None
  end.

(** Modelled from the spec: [fields(id)] of a data adapter, the lookup
    the interface makes before it shows an item ([humannotator.interface]
    is not part of the sources at hand).  The tabular variant answers
    with its [__getitem__]; the keyed and the sequential variant answer
    with a single field that holds the value; an id that the adapter
    does not have fails. *)
Definition fields (d : Data) (id : Id) : Result Fields :=
  match d with
  | Data_DataFrame _ _ _ => __getitem__ d id
  | Data_Dict _ ids items =>
      match list_find (λ k, k = id) ids with
      | Some (j, _) =>
          match items !! j with
          | Some v => Ok [[("value", v)]]
          | None => Raise KeyError
          end
      | None => Raise KeyError
      end
  | Data_List _ ids items =>
      match list_find (λ k, k = id) ids with
      | Some (j, _) =>
          match item_at items j with
          | Some v => Ok [[("value", v)]]
          | None => Raise KeyError
          end
      | None => Raise KeyError
      end
  end.

(** Modelled from the spec: the interface object built by
    [Interface(self, **kwargs)]: whether it is still active, and the
    data and keyword arguments it was built with. *)
Record Interface := {
  active : bool;
  interface_data : Data;
  interface_kwargs : Kwargs
}.

(** Modelled from the spec: the commit step, the only writer of the
    ledger: [self.annotations] takes the answers for [id]. *)
Definition commit (id : Id) (answers : list Scalar) (self : Obj) : Result Obj :=
  a ← attr self "_annotations";
  match a with
  | OAnnotations a =>
      Ok (<["_annotations" := OAnnotations (Annotations.upsert id answers a)]> self)
  | _ => Raise AttributeError
  end.

(** A sequence of commits, the first one first. *)
Fixpoint commit_all (commits : list (Id * list Scalar)) (self : Obj) : Result Obj :=
  match commits with
  | [] => Ok self
  | (id, answers) :: commits' =>
      self ← commit id answers self;
      commit_all commits' self
  end.

Definition no_data_message : string :=
  "NO DATA LOADED
==============
Load the data first by assigning it to the `data` property of the annotator.".

Section Session.

(** The human behind the renderer: [present h self kwargs id fs]
    shows item [id] with fields [fs] to the human in state [h], who
    sees the annotator [self], and yields the next state of the human
    and either the validated answers for the item or [None], the stop
    signal. *)
Context {Human : Type}.
Variable present :
  Human → Obj → Kwargs → Id → Fields → Human * option (list Scalar).

(** The annotator, what was printed, the human, and the ids handed
    to the interface so far. *)
Record World := {
  self : Obj;
  stdout : list string;
  human : Human;
  presented : list Id
}.

(** Computations that read and write the world and may raise; what
    was written before an exception stays written. *)
Definition M (A : Type) : Type := World → Result A * World.

#[global] Instance M_ret : MRet M := λ A a w, (Ok a, w).

#[global] Instance M_bind : MBind M := λ A B k m w,
  match m w with
  | (Ok a, w') => k a w'
  | (Raise e, w') => (Raise e, w')
  end.

Definition raise {A} (e : Exn) : M A := λ w, (Raise e, w).

Definition lift {A} (r : Result A) : M A := λ w, (r, w).

(** [self.name] *)
Definition getattr (name : string) : M PyObj := λ w, (attr (self w) name, w).

(** [self.name = v] *)
Definition setattr (name : string) (v : PyObj) : M unit := λ w,
  (Ok (),
   {| self := <[name := v]> (self w); stdout := stdout w;
      human := human w; presented := presented w |}).

(** A method that rewrites the attributes of [self]. *)
Definition update (f : Obj → Result Obj) : M unit := λ w,
  match f (self w) with
  | Ok o =>
      (Ok (),
       {| self := o; stdout := stdout w; human := human w;
          presented := presented w |})
  | Raise e => (Raise e, w)
  end.

(** [print(s)] *)
Definition print (s : string) : M unit := λ w,
  (Ok (),
   {| self := self w; stdout := stdout w ++ [s];
      human := human w; presented := presented w |}).

(** The getter of the property [data]. *)
Definition Annotator_data : M PyObj :=
  d ← getattr "_data";
  match d with
  | ONone => print no_data_message
  | _ => mret ()
  end;;
  mret d.

(** The getter of the property [annotations]. *)
Definition Annotator_annotations : M PyObj := getattr "_annotations".

(** [self.annotations.data.index] *)
Definition annotations_data_index : M (list Id) :=
  a ← Annotator_annotations;
  match a with
  | OAnnotations a => mret (index (Annotations.data a))
  | _ => raise AttributeError
  end.

(** [self.data.ids] *)
Definition data_ids : M PyObj :=
  d ← Annotator_data;
  match d with
  | OData d => mret (Data_ids d)
  | _ => raise AttributeError
  end.

(** The list comprehension
    [[id for id in ids if id not in self.annotations.data.index]],
    which appends the ids it keeps to the list built so far. *)
Fixpoint not_annotated (ids : list Id) (acc : list Id) : M (list Id) :=
  match ids with
  | [] => mret acc
  | id :: ids' =>
      idx ← annotations_data_index;
      if bool_decide (id ∉ idx) then not_annotated ids' (acc ++ [id])
      else not_annotated ids' acc
  end.

(** Modelled from the spec: [Interface(self, **kwargs)]. *)
Definition Interface__init__ (kwargs : Kwargs) : M Interface :=
  d ← Annotator_data;
  match d with
  | OData d =>
      mret {| active := true; interface_data := d; interface_kwargs := kwargs |}
  | _ => raise AttributeError
  end.

(** The human is shown an item. *)
Definition ask (kwargs : Kwargs) (id : Id) (fs : Fields)
    : M (option (list Scalar)) := λ w,
  let '(h, answer) := present (human w) (self w) kwargs id fs in
  (Ok answer,
   {| self := self w; stdout := stdout w; human := h;
      presented := presented w |}).

(** The interface receives an id. *)
Definition receive (id : Id) : M unit := λ w,
  (Ok (),
   {| self := self w; stdout := stdout w; human := human w;
      presented := presented w ++ [id] |}).

(** Modelled from the spec: [interface(id)], the call of the interface
    on one id: it looks up the fields of the item, shows them and
    either commits the answers to the ledger or, on the stop signal,
    becomes inactive. *)
Definition Interface__call__ (interface : Interface) (id : Id) : M Interface :=
  receive id;;
  fs ← lift (fields (interface_data interface) id);
  answer ← ask (interface_kwargs interface) id fs;
  match answer with
  | Some answers => update (commit id answers);; mret interface
  | None =>
      mret {| active := false;
              interface_data := interface_data interface;
              interface_kwargs := interface_kwargs interface |}
  end.

(** The loop [for i, id in enumerate(self.ids)]. *)
Fixpoint annotate (interface : Interface) (i : nat) (ids : list Id) : M unit :=
  match ids with
  | [] => mret ()
  | id :: ids' =>
      setattr "i" (OInt (Z.of_nat i));;
      interface ← Interface__call__ interface id;
      if negb (active interface) then mret ()
      else annotate interface (S i) ids'
  end.

(** [Annotator.__call__].  It returns [None] on both of its ways
    out.  With [redo] the object stored as [self.ids] is the [ids]
    argument itself or, without one, the very [ids] of the adapter. *)
Definition __call__ (ids : option (list Id)) (user : option string)
    (redo : bool) (kwargs : Kwargs) : M unit :=
  (if py_truthy (of_user user) then setattr "user" (of_user user) else mret ());;
  d ← Annotator_data;
  match d with
  | ONone => mret ()
  | _ =>
      k ← getattr "kwargs";
      kwargs ← match k with
               | ODict k => mret (k ∪ kwargs)
               | _ => raise TypeError
               end;
      ids ← match ids with
            | None => data_ids
            | Some ids => mret (OList ids)
            end;
      (if negb redo then
         ids ← lift (iter_ids ids);
         l ← not_annotated ids [];
         setattr "ids" (OList l)
       else setattr "ids" ids);;
      interface ← Interface__init__ kwargs;
      l ← getattr "ids";
      l ← lift (iter_ids l);
      annotate interface 0 l
  end.

End Session.

(** ** Notions used by the properties *)

(** The ids a call asks for: the argument, or all ids of the adapter. *)
Definition requested (ids : option (list Id)) (d : Data) : list Id :=
  from_option (λ l, l) (ids_of d) ids.

(** The rows of the ledger of a session. *)
Definition ledger_index (a : Annotations.t) : list Id :=
  index (Annotations.data a).

(** The subsequence of [ids] that the ledger does not have, in the words
    of the specification: an id of the ledger is dropped, any other id
    is kept, and the ids keep their places. *)
Fixpoint unannotated (a : Annotations.t) (ids : list Id) : list Id :=
  match ids with
  | [] => []
  | id :: ids' =>
      if Annotations.has a id then unannotated a ids'
      else id :: unannotated a ids'
  end.

(** The work list of a call. *)
Definition work_list (redo : bool) (a : Annotations.t) (ids : list Id) : list Id :=
  if redo then ids else unannotated a ids.

(** The object that a call stores as [self.ids]: with [redo] the
    requested ids as they come, the argument or the [ids] of the
    adapter, and otherwise the list that the comprehension builds. *)
Definition stored_ids (redo : bool) (a : Annotations.t)
    (ids : option (list Id)) (d : Data) : PyObj :=
  if redo then from_option OList (Data_ids d) ids
  else OList (unannotated a (requested ids d)).

(** [c1] is checked before [c2] by a loop over [order]. *)
Definition checked_before (c1 c2 : DataClass) (order : list DataClass) : Prop :=
  ∃ i j, order !! i = Some c1 ∧ order !! j = Some c2 ∧ i < j.

(** The tabular variant comes first in the order of [load_data]. *)
Definition tabular_checked_first : Prop :=
  checked_before cls_Data_DataFrame cls_Data_List registry.*2 ∧
  checked_before cls_Data_DataFrame cls_Data_Dict registry.*2.

Definition is_tabular (d : Data) : bool :=
  match d with
  | Data_DataFrame _ _ _ => true
  | _ => false
  end.

(** A saved state without the cursor of the last run. *)
Definition cursor_excluded (state : Obj) : Prop :=
  state !! "ids" = None ∧ state !! "i" = None.

(** A session whose attribute [save_data] is set and that, unless the
    flag is truthy, has the attribute [_data]: what [__getstate__]
    reads. *)
Definition picklable (self : Obj) : Prop :=
  ∃ v, self !! "save_data" = Some v ∧
       (py_truthy v = false → is_Some (self !! "_data")).

(** A session with the attributes that [__init__] sets, and with data
    attached. *)
Record ready (self : Obj) (d : Data) (a : Annotations.t) (k : Kwargs) : Prop := {
  ready_data : self !! "_data" = Some (OData d);
  ready_annotations : self !! "_annotations" = Some (OAnnotations a);
  ready_kwargs : self !! "kwargs" = Some (ODict k)
}.

(** The attributes once the [user] argument of a call is taken in: a
    truthy user replaces the stored one. *)
Definition after_user (user : option string) (self : Obj) : Obj :=
  if py_truthy (of_user user) then <["user" := of_user user]> self else self.

(** A session: an object with the attributes that [__init__] sets and
    that a call reads, each of the type [__init__] gives it; the data may
    be missing. *)
Record session (self : Obj) : Prop := {
  session_kwargs : ∃ k, self !! "kwargs" = Some (ODict k);
  session_annotations : ∃ a, self !! "_annotations" = Some (OAnnotations a);
  session_data :
    self !! "_data" = Some ONone ∨ ∃ d, self !! "_data" = Some (OData d)
}.

(** ** Sessions used as examples *)

Definition news : DataFrame :=
  {| columns := ["news_id"; "title"];
     rows := [(SInt 0, [SInt 17; SStr "a"]); (SInt 1, [SInt 42; SStr "b"])] |}.

Definition flag : Task :=
  {| task_name := "flag"; task_kind := kind_bool; task_nullable := false;
     task_default := None; task_instruction := "" |}.

Definition abc : RawData := PyList [SStr "a"; SStr "b"; SStr "c"].

(** The object a constructor call yields; an object without attributes
    stands for a call that raised. *)
Definition constructed (r : Result Obj) : Obj :=
  match r with
  | Ok self => self
  | Raise _ => ∅
  end.

(** [Annotator([flag], ["a", "b", "c"])] *)
Definition session_abc : Obj :=
  constructed (__init__ (TasksList [flag]) (RawInput abc) None "HUMANNOTATOR" false ∅).

(** The same annotator once the items 0 and 1 are annotated. *)
Definition session_abc_annotated : Obj :=
  constructed (commit_all [(SInt 0, [SInt 1]); (SInt 1, [SInt 0])] session_abc).

(** The adapter and the ledgers of these two annotators. *)
Definition adapter_abc : Data := Data_List abc [SInt 0; SInt 1; SInt 2] abc.

Definition ledger_empty : Annotations.t := Annotations.new [flag].

Definition ledger_abc : Annotations.t :=
  Annotations.upsert (SInt 1) [SInt 0]
    (Annotations.upsert (SInt 0) [SInt 1] ledger_empty).

(** [Annotator([flag])], without data. *)
Definition session_nodata : Obj :=
  constructed (__init__ (TasksList [flag]) NoData None "HUMANNOTATOR" false ∅).

(** An annotator over [news] whose tasks are inferred from a table of
    earlier annotations, which has a row for the id 99. *)
Definition earlier : DataFrame :=
  {| columns := ["flag"]; rows := [(SInt 99, [SInt 1])] |}.

Definition session_news : Obj :=
  constructed (__init__ (TasksFrame earlier) (RawInput (PyDataFrame news)) None
                 "HUMANNOTATOR" false ∅).

Definition adapter_news : Data :=
  Data_DataFrame news ["news_id"; "title"] [SInt 0; SInt 1].

(** A human who gives the stop signal at once, and one who answers
    every item with [True]. *)
Definition stops : unit → Obj → Kwargs → Id → Fields → unit * option (list Scalar) :=
  λ _ _ _ _ _, ((), None).

Definition says_yes : unit → Obj → Kwargs → Id → Fields → unit * option (list Scalar) :=
  λ _ _ _ _ _, ((), Some [SInt 1]).

(** A human who answers [True] until shown the item [x], and gives the
    stop signal there. *)
Definition stops_at (x : Id)
    : unit → Obj → Kwargs → Id → Fields → unit * option (list Scalar) :=
  λ _ _ _ id _, ((), if decide (id = x) then None else Some [SInt 1]).

(** [Annotator([flag], {"tea": 3, "rye": 5}, save_data=True)] and the
    same annotator with [save_data=False]; the adapter of both. *)
Definition prices : RawData :=
  PyDict [(SStr "tea", SInt 3); (SStr "rye", SInt 5)].

Definition session_prices : Obj :=
  constructed (__init__ (TasksList [flag]) (RawInput prices) None "HUMANNOTATOR" true ∅).

Definition session_prices_bare : Obj :=
  constructed (__init__ (TasksList [flag]) (RawInput prices) None "HUMANNOTATOR" false ∅).

Definition adapter_prices : Data :=
  Data_Dict prices [SStr "tea"; SStr "rye"] [SInt 3; SInt 5].

(** [Annotator([flag], adapter, text_display=True)] over the adapter of
    ["a", "b", "c"]. *)
Definition session_abc_text : Obj :=
  constructed (__init__ (TasksList [flag]) (AdapterData adapter_abc) None
                 "HUMANNOTATOR" false {["text_display" := KBool true]}).

(** The world at the start of a run. *)
Definition start {Human} (self : Obj) (h : Human) : World :=
  {| self := self; stdout := []; human := h; presented := [] |}.

(** A pickle that is the state itself. *)
Definition plain_dumps : Obj → Obj := λ state, state.
Definition plain_loads : Obj → option Obj := Some.

(** ** More of the code *)

(** A renderer that keeps a record of what it is shown: the annotator,
    the keyword arguments and the id of each presentation, in order. *)
Definition recording {Human}
    (present : Human → Obj → Kwargs → Id → Fields → Human * option (list Scalar))
    : Human * list (Obj * Kwargs * Id) → Obj → Kwargs → Id → Fields →
      (Human * list (Obj * Kwargs * Id)) * option (list Scalar) :=
  λ hl self kwargs id fs,
    let '(h, answer) := present hl.1 self kwargs id fs in
    ((h, hl.2 ++ [(self, kwargs, id)]), answer).

(** display.py, [ProtoDisplay.index_counter]: the [count] and the [total]
    that it hands to the [Counter] element, [self.annotator.i+1] and
    [len(self.annotator.ids)].  (The element renders a template that is
    not among the sources.) *)
Definition index_counter (annotator : Obj) : Result (Z * nat) :=
  i ← attr annotator "i";
  count ← match i with
          | OInt n => Ok (n + 1)%Z
          | OBool b => Ok (Z.b2z b + 1)%Z
          | _ => Raise TypeError
          end;
  ids ← attr annotator "ids";
  total ← match ids with
          | OList l | OKeys l => Ok (length l)
          | OStr s => Ok (String.length s)
          | ODict d => Ok (size d)
          | OData d => Ok (Data__len__ d)
          | OAnnotations _ => Raise Unsupported
          | _ => Raise TypeError
          end;
  Ok (count, total).

(** [itertools.cycle] zipped with a finite list: the elements of [xs]
    are handed out one by one, [pending] being those left of the current
    round, and the saved copy [xs] starts the next round; an empty [xs]
    hands out nothing. *)
Fixpoint zip_cycle {A B} (l : list A) (pending xs : list B) : list (A * B) :=
  match l with
  | [] => []
  | a :: l' =>
      match pending with
      | b :: pending' => (a, b) :: zip_cycle l' pending' xs
      | [] =>
          match xs with
          | b :: pending' => (a, b) :: zip_cycle l' pending' xs
          | [] => []
          end
      end
  end.

(** [dict(pairs)]: a later pair with a known key replaces its value. *)
Definition dict_of_pairs {K V} `{EqDecision K} (pairs : list (K * V))
    : list (K * V) :=
  foldl (λ d kv, dict_set kv.1 kv.2 d) [] pairs.

(** The [phrases] argument of a [Highlighter]: [None], one phrase,
    phrases, or a mapping from phrases to styles. *)
Inductive PhrasesArg (Style : Type) :=
  | PhrasesNone
  | PhrasesStr (s : string)
  | PhrasesList (l : list string)
  | PhrasesDict (d : list (string * Style)).
Arguments PhrasesNone {Style}.
Arguments PhrasesStr {Style} s.
Arguments PhrasesList {Style} l.
Arguments PhrasesDict {Style} d.

(** display.py, the setter of [Highlighter.phrases].  [highlight] is
    [CSS.highlight], the one element of the tuple [styles]; it is read
    from the configuration and stands here for any finite iterable of
    styles.  [phrases is not
    Mapping] compares the argument with the class [Mapping] itself and
    holds for every argument of [PhrasesArg]; iterating over a mapping
    yields its keys. *)
Definition phrases_setter {Style} (highlight : list Style)
    (phrases : PhrasesArg Style) : option (list (string * Style)) :=
  match phrases with
  | PhrasesNone => None
  | PhrasesStr s => Some (dict_of_pairs (zip_cycle [s] highlight highlight))
  | PhrasesList l => Some (dict_of_pairs (zip_cycle l highlight highlight))
  | PhrasesDict d => Some (dict_of_pairs (zip_cycle d.*1 highlight highlight))
  end.

(** [self.data.data.copy()] of [merged]: a list, a dictionary, a frame
    and a series have a [copy]; a tuple, a string and a number have
    none. *)
Definition data_copy (d : Data) : Result RawData :=
  let data :=
    match d with
    | Data_List data _ _ | Data_Dict data _ _ => data
    | Data_DataFrame df _ _ => PyDataFrame df
    end in
  match data with
  | PyTuple _ | PyScalar _ => Raise AttributeError
  | _ => Ok data
  end.

(** [d.columns], which only a frame has. *)
Definition columns_of (d : RawData) : Result DataFrame :=
  match d with
  | PyDataFrame df | PyFrameSeq df => Ok df
  | _ => Raise AttributeError
  end.

(** A frame whose columns have two levels, as
    [pd.MultiIndex.from_product([[top], df.columns])] makes them. *)
Record GroupedFrame := {
  grouped_columns : list (string * string);
  grouped_rows : list (Id * list Scalar)
}.

Definition grouped (top : string) (df : DataFrame) : GroupedFrame :=
  {| grouped_columns := (λ c, (top, c)) <$> columns df;
     grouped_rows := rows df |}.

Section Views.

Context {Human : Type} {Table : Type}.

(** [d.merge(a, left_index=True, right_index=True)] of pandas, which is
    taken as it is. *)
Variable merge : GroupedFrame → GroupedFrame → Result Table.

(** [Annotator.merged].  Both copies are made before [d.columns], the
    right-hand side of the first assignment, is read. *)
Definition merged : @M Human (option Table) :=
  d ← Annotator_data;
  match d with
  | ONone => mret None
  | _ =>
      d ← Annotator_data;
      d ← match d with
          | OData d => lift (data_copy d)
          | OAnnotations a => mret (PyDataFrame (Annotations.data a))
          | _ => raise AttributeError
          end;
      a ← (λ w, (annotated (self w), w));
      d ← lift (columns_of d);
      t ← lift (merge (grouped "DATA" d) (grouped "ANNOTATIONS" a));
      mret (Some t)
  end.

End Views.

(** What a presentation sees of the cursor: the annotator it is shown
    holds the object [o] as [ids], and its position [i] points, in the
    work list [l], at the id it is given. *)
Definition cursor_at (o : PyObj) (l : list Id) (entry : Obj * Kwargs * Id) : Prop :=
  ∃ i : nat,
    entry.1.1 !! "i" = Some (OInt (Z.of_nat i)) ∧
    entry.1.1 !! "ids" = Some o ∧
    l !! i = Some entry.2.

(** A world without the record of a recording renderer. *)
Definition erase {Human R} (w : @World (Human * R)) : @World Human :=
  {| self := self w; stdout := stdout w; human := (human w).1;
     presented := presented w |}.

(** The phrases that a [phrases] argument names. *)
Definition phrase_list {Style} (phrases : PhrasesArg Style) : list string :=
  match phrases with
  | PhrasesNone => []
  | PhrasesStr s => [s]
  | PhrasesList l => l
  | PhrasesDict d => d.*1
  end.

(** * Properties *)

(** ** The registry and [load_data] *)

Lemma registry_order :
  registry.*2 = [cls_Data_List; cls_Data_Dict; cls_Data_DataFrame].
Proof. reflexivity. Qed.

Lemma load_data_from_first_match classes data kwargs :
  load_data_from classes data kwargs =
    match list_find (λ cls, Is_true (isinstance data (kind cls))) classes with
    | Some (_, cls) => d ← construct cls data kwargs; Ok (Some d)
    | None => Ok None
    end.
Proof.
  induction classes as [|cls classes IH]; [done|].
  cbn [load_data_from list_find].
  destruct (isinstance data (kind cls)) eqn:Hcls.
  - rewrite decide_True by done. done.
  - rewrite decide_False by (by intros []).
    rewrite IH. by destruct (list_find _ classes) as [[j c]|].
Qed.

(** C5 fails as it is stated: the tabular variant is registered last,
    so [load_data] checks it after the sequence and the mapping
    variant. *)
Lemma tabular_not_checked_first : ¬ tabular_checked_first.
Proof.
  intros [(i & j & Hi & Hj & Hlt) _].
  rewrite registry_order in Hi, Hj.
  destruct j as [|j]; [lia|].
  destruct j as [|[|j]]; discriminate Hj.
Qed.

(** The order shows on an input that is a frame and a sequence at once:
    the sequential variant takes it. *)
Example frame_that_is_a_sequence :
  load_data (PyFrameSeq news) ∅
  = Ok (Some (Data_List (PyFrameSeq news) [SInt 0; SInt 1] (PyFrameSeq news))).
Proof. vm_compute. reflexivity. Qed.

(** C5, as the code has it.  [load_data] checks the variants in the
    order of their registration, sequence, mapping, tabular, and the
    first match wins; an input that is a [pd.DataFrame] and neither a
    [Sequence] nor a [Mapping] is handed to the constructor of the
    tabular variant, and what [load_data] returns for it is a tabular
    adapter. *)
Theorem load_data_tabular data kwargs :
  isinstance data pd_DataFrame = true →
  isinstance data Sequence = false →
  isinstance data Mapping = false →
  registry.*2 = [cls_Data_List; cls_Data_Dict; cls_Data_DataFrame] ∧
  load_data data kwargs =
    match list_find (λ cls, Is_true (isinstance data (kind cls))) registry.*2 with
    | Some (_, cls) => d ← construct cls data kwargs; Ok (Some d)
    | None => Ok None
    end ∧
  load_data data kwargs = (d ← construct cls_Data_DataFrame data kwargs; Ok (Some d)) ∧
  ∀ r, load_data data kwargs = Ok r → ∃ d, r = Some d ∧ is_tabular d = true.
Proof.
  intros Hdf Hseq Hmap.
  assert (Hload : load_data data kwargs
                  = (d ← construct cls_Data_DataFrame data kwargs; Ok (Some d))).
  { unfold load_data. rewrite registry_order. cbn [load_data_from kind].
    by rewrite Hseq, Hmap, Hdf. }
  split_and!; [done|apply load_data_from_first_match|done|].
  intros r. rewrite Hload. unfold construct.
  destruct (accepts _ kwargs); [|done].
  destruct data as [| | |df|df| |]; try done.
  unfold Data_DataFrame__init__.
  destruct (if kw_truthy _ then _ else _) as [sd|]; [|done]. cbn.
  destruct (if negb _ then _ else _) as [cols|]; [|done]. cbn.
  intros [= <-]. eauto.
Qed.

Lemma load_data_tabular_witness :
  let data := PyDataFrame news in
  let kwargs : gmap string KwVal := {["id_col" := KStr "news_id"]} in
  registry.*2 = [cls_Data_List; cls_Data_Dict; cls_Data_DataFrame] ∧
  load_data data kwargs =
    match list_find (λ cls, Is_true (isinstance data (kind cls))) registry.*2 with
    | Some (_, cls) => d ← construct cls data kwargs; Ok (Some d)
    | None => Ok None
    end ∧
  load_data data kwargs = (d ← construct cls_Data_DataFrame data kwargs; Ok (Some d)) ∧
  ∀ r, load_data data kwargs = Ok r → ∃ d, r = Some d ∧ is_tabular d = true.
Proof.
  apply (load_data_tabular (PyDataFrame news) {["id_col" := KStr "news_id"]});
    reflexivity.
Defined.

(** C10.  An input that is neither a sequence, nor a mapping, nor a
    frame matches no registered variant: [load_data] returns [None] and
    raises nothing. *)
Theorem load_data_no_match data kwargs :
  isinstance data Sequence = false →
  isinstance data Mapping = false →
  isinstance data pd_DataFrame = false →
  load_data data kwargs = Ok None.
Proof.
  intros Hseq Hmap Hdf. unfold load_data. rewrite registry_order.
  cbn [load_data_from kind]. by rewrite Hseq, Hmap, Hdf.
Qed.

Lemma load_data_no_match_witness :
  load_data (PySeries [SInt 0] [SStr "a"]) {["id_col" := KStr "news_id"]} = Ok None.
Proof. apply load_data_no_match; reflexivity. Defined.

Example load_data_list :
  load_data abc ∅ = Ok (Some (Data_List abc [SInt 0; SInt 1; SInt 2] abc)).
Proof. vm_compute. reflexivity. Qed.

Example load_data_dict :
  load_data (PyDict [(SStr "x", SInt 1); (SStr "y", SInt 2)]) ∅
  = Ok (Some (Data_Dict (PyDict [(SStr "x", SInt 1); (SStr "y", SInt 2)])
                [SStr "x"; SStr "y"] [SInt 1; SInt 2])).
Proof. vm_compute. reflexivity. Qed.

Example load_data_frame :
  load_data (PyDataFrame news) {["id_col" := KStr "news_id"]}
  = Ok (Some (Data_DataFrame
                {| columns := ["title"];
                   rows := [(SInt 17, [SStr "a"]); (SInt 42, [SStr "b"])] |}
                ["news_id"; "title"] [SInt 17; SInt 42])).
Proof. vm_compute. reflexivity. Qed.

Example load_data_list_keyword :
  load_data abc {["id_col" := KStr "news_id"]} = Raise TypeError.
Proof. vm_compute. reflexivity. Qed.

(** Scenario C of the specification: a tabular adapter with
    [id_col="news_id"] and [item_cols=["title"]] answers for the id 17
    and fails for an id it does not have. *)
Example scenario_C :
  ∃ d, load_data (PyDataFrame news)
         {["id_col" := KStr "news_id"; "item_cols" := KStrs ["title"]]}
       = Ok (Some d) ∧
       __getitem__ d (SInt 17) = Ok [[("title", SStr "a")]] ∧
       __getitem__ d (SInt 5) = Raise KeyError.
Proof. eexists. split_and!; vm_compute; reflexivity. Qed.

(** ** The run of the annotator *)

Section SessionFacts.
Context {Human : Type}.
Variable present :
  Human → Obj → Kwargs → Id → Fields → Human * option (list Scalar).

Implicit Types (w : @World Human) (a : Annotations.t).

Lemma run_bind {A B} (m : M A) (k : A → M B) w :
  (m ≫= k) w =
    match m w with
    | (Ok x, w') => k x w'
    | (Raise e, w') => (Raise e, w')
    end.
Proof. reflexivity. Qed.

Lemma run_ret {A} (x : A) w : (mret x : M A) w = (Ok x, w).
Proof. reflexivity. Qed.

Lemma run_index a w :
  self w !! "_annotations" = Some (OAnnotations a) →
  annotations_data_index w = (Ok (ledger_index a), w).
Proof.
  intros Ha. unfold annotations_data_index, Annotator_annotations, getattr, attr.
  rewrite run_bind, Ha. reflexivity.
Qed.

Lemma not_annotated_ok a ids acc w :
  self w !! "_annotations" = Some (OAnnotations a) →
  not_annotated ids acc w = (Ok (acc ++ unannotated a ids), w).
Proof.
  intros Ha. revert acc.
  induction ids as [|id ids IH]; intros acc.
  - cbn. by rewrite app_nil_r.
  - cbn [not_annotated unannotated]. rewrite run_bind, (run_index a) by done.
    unfold Annotations.has, ledger_index.
    destruct (decide (id ∈ index (Annotations.data a))) as [Hin|Hin].
    + rewrite bool_decide_false by (by intros ?).
      rewrite bool_decide_true by done. apply IH.
    + rewrite bool_decide_true by done.
      rewrite (bool_decide_false (id ∈ _)) by done.
      rewrite IH. by rewrite <- app_assoc.
Qed.

Lemma not_annotated_world ids acc w : (not_annotated ids acc w).2 = w.
Proof.
  revert acc. induction ids as [|id ids IH]; intros acc; [done|].
  cbn [not_annotated]. rewrite run_bind.
  unfold annotations_data_index, Annotator_annotations, getattr.
  rewrite run_bind.
  destruct (attr (self w) "_annotations") as [[]|]; try done.
  cbn. case_bool_decide; apply IH.
Qed.

Lemma elem_of_unannotated a ids x :
  x ∈ unannotated a ids ↔ x ∈ ids ∧ x ∉ ledger_index a.
Proof.
  induction ids as [|id ids IH]; cbn [unannotated].
  - rewrite elem_of_nil. tauto.
  - unfold Annotations.has at 1. fold (ledger_index a).
    case_bool_decide; rewrite ?elem_of_cons, IH; intuition (subst; tauto).
Qed.

Lemma unannotated_filter a ids :
  unannotated a ids = filter (λ id, id ∉ ledger_index a) ids.
Proof.
  induction ids as [|id ids IH]; [done|]. cbn [unannotated].
  unfold Annotations.has at 1. fold (ledger_index a).
  rewrite filter_cons. case_bool_decide.
  - rewrite decide_False by (by intros ?). done.
  - rewrite decide_True by done. by rewrite IH.
Qed.

Lemma unannotated_sublist a ids : unannotated a ids `sublist_of` ids.
Proof.
  induction ids as [|id ids IH]; cbn; [done|].
  destruct (Annotations.has a id); by constructor.
Qed.

(** *** One call of the interface *)

Lemma commit_ok id answers a (o : gmap string PyObj) :
  o !! "_annotations" = Some (OAnnotations a) →
  commit id answers o
  = Ok (<["_annotations" := OAnnotations (Annotations.upsert id answers a)]> o).
Proof. intros Ha. unfold commit, attr. by rewrite Ha. Qed.

Lemma commit_frame id answers (o o' : gmap string PyObj) k :
  commit id answers o = Ok o' → k ≠ "_annotations" → o' !! k = o !! k.
Proof.
  unfold commit, attr. destruct (o !! "_annotations") as [[]|]; try done.
  cbn. intros [= <-] Hk. by rewrite lookup_insert_ne.
Qed.

Lemma Interface_call_presented it id w :
  presented (Interface__call__ present it id w).2 = presented w ++ [id].
Proof.
  unfold Interface__call__. rewrite run_bind. cbn [receive].
  rewrite run_bind. unfold lift at 1.
  destruct (fields _ id) as [fs|e]; [|done].
  rewrite run_bind. unfold ask at 1. cbn [self human stdout presented].
  destruct (present _ _ _ _ _) as [h [answers|]]; [|done].
  rewrite run_bind. unfold update at 1. cbn [self human stdout presented].
  by destruct (commit _ _ _).
Qed.

Lemma Interface_call_frame it id w k :
  k ≠ "_annotations" →
  self (Interface__call__ present it id w).2 !! k = self w !! k.
Proof.
  intros Hk.
  unfold Interface__call__. rewrite run_bind. cbn [receive].
  rewrite run_bind. unfold lift at 1.
  destruct (fields _ id) as [fs|e]; [|done].
  rewrite run_bind. unfold ask at 1. cbn [self human stdout presented].
  destruct (present _ _ _ _ _) as [h [answers|]]; [|done].
  rewrite run_bind. unfold update at 1. cbn [self human stdout presented].
  destruct (commit _ _ _) as [o|] eqn:Hc; [|done].
  cbn. by apply (commit_frame id answers (self w)).
Qed.


Lemma Interface_call_answer it id w fs a :
  (∀ h o k id fs, (present h o k id fs).2 ≠ None) →
  fields (interface_data it) id = Ok fs →
  self w !! "_annotations" = Some (OAnnotations a) →
  ∃ w' a',
    Interface__call__ present it id w = (Ok it, w') ∧
    self w' !! "_annotations" = Some (OAnnotations a').
Proof.
  intros Hgo Hf Ha. unfold Interface__call__. rewrite run_bind. cbn [receive].
  rewrite run_bind. unfold lift at 1. rewrite Hf.
  rewrite run_bind. unfold ask at 1. cbn [self human stdout presented].
  specialize (Hgo (human w) (self w) (interface_kwargs it) id fs).
  destruct (present _ _ _ _ _) as [h [answers|]]; [|done].
  rewrite run_bind. unfold update at 1. cbn [self human stdout presented].
  rewrite (commit_ok _ _ a) by done.
  eexists _, _. split; [reflexivity|]. cbn. apply lookup_insert_eq.
Qed.

(** *** The loop over the work list *)

Lemma annotate_presented it i ids w :
  ∃ n, presented (annotate present it i ids w).2 = presented w ++ take n ids.
Proof.
  revert it i w. induction ids as [|id ids IH]; intros it i w.
  - exists 0. cbn. by rewrite app_nil_r.
  - cbn [annotate]. rewrite run_bind. cbn [setattr].
    rewrite run_bind.
    set (w1 := {| self := _ |}).
    pose proof (Interface_call_presented it id w1) as Hp.
    destruct (Interface__call__ present it id w1) as [[it'|e] w2]; cbn in Hp.
    + destruct (negb (active it')).
      * exists 1. cbn. by rewrite Hp.
      * destruct (IH it' (S i) w2) as [n Hn].
        exists (S n). rewrite Hn, Hp. cbn. by rewrite <- app_assoc.
    + exists 1. cbn. by rewrite Hp.
Qed.

Lemma annotate_frame it i ids w k :
  k ≠ "i" → k ≠ "_annotations" →
  self (annotate present it i ids w).2 !! k = self w !! k.
Proof.
  intros Hi Ha.
  revert it i w. induction ids as [|id ids IH]; intros it i w; [done|].
  cbn [annotate]. rewrite run_bind. cbn [setattr].
  rewrite run_bind.
  set (w1 := {| self := _ |}).
  pose proof (Interface_call_frame it id w1 k Ha) as Hp.
  destruct (Interface__call__ present it id w1) as [[it'|e] w2]; cbn in Hp.
  - destruct (negb (active it')).
    + cbn. rewrite Hp. by rewrite lookup_insert_ne.
    + rewrite IH, Hp. by rewrite lookup_insert_ne.
  - cbn [snd]. rewrite Hp. by rewrite lookup_insert_ne.
Qed.

Lemma annotate_all it i ids w a :
  (∀ h o k id fs, (present h o k id fs).2 ≠ None) →
  active it = true →
  (∀ id, id ∈ ids → ∃ fs, fields (interface_data it) id = Ok fs) →
  self w !! "_annotations" = Some (OAnnotations a) →
  (annotate present it i ids w).1 = Ok () ∧
  presented (annotate present it i ids w).2 = presented w ++ ids.
Proof.
  intros Hgo Hact. revert i w a.
  induction ids as [|id ids IH]; intros i w a Hfs Ha.
  - cbn. by rewrite app_nil_r.
  - cbn [annotate]. rewrite run_bind. cbn [setattr].
    rewrite run_bind.
    set (w1 := {| self := _ |}).
    destruct (Hfs id) as [fs Hf]; [by left|].
    destruct (Interface_call_answer it id w1 fs a Hgo Hf) as (w2 & a' & Hrun & Ha').
    { cbn. by rewrite lookup_insert_ne. }
    pose proof (Interface_call_presented it id w1) as Hp.
    rewrite Hrun in Hp |- *. cbn in Hp. rewrite Hact. cbn [negb].
    destruct (IH (S i) w2 a') as [Hr Hpr]; [|done|].
    { intros id' Hid'. apply Hfs. by right. }
    split; [done|]. rewrite Hpr, Hp. by rewrite <- app_assoc.
Qed.


(** *** The call *)

Lemma after_user_lookup user (o : gmap string PyObj) k :
  k ≠ "user" → after_user user o !! k = o !! k.
Proof.
  intros Hk. unfold after_user.
  destruct (py_truthy _); [by rewrite lookup_insert_ne|done].
Qed.

Lemma run_data_none w :
  self w !! "_data" = Some ONone →
  Annotator_data w
  = (Ok ONone,
     {| self := self w; stdout := stdout w ++ [no_data_message];
        human := human w; presented := presented w |}).
Proof.
  intros Hd. unfold Annotator_data, getattr, attr.
  rewrite run_bind, Hd. reflexivity.
Qed.

Lemma run_data_some w d :
  self w !! "_data" = Some (OData d) →
  Annotator_data w = (Ok (OData d), w).
Proof.
  intros Hd. unfold Annotator_data, getattr, attr.
  rewrite run_bind, Hd. cbn. by destruct w.
Qed.

Lemma call_without_data ids user redo kwargs w :
  self w !! "_data" = Some ONone →
  __call__ present ids user redo kwargs w
  = (Ok (),
     {| self := after_user user (self w);
        stdout := stdout w ++ [no_data_message];
        human := human w; presented := presented w |}).
Proof.
  intros Hd. unfold __call__, after_user. rewrite run_bind.
  destruct (py_truthy (of_user user)); cbn [setattr mret M_ret].
  - rewrite run_bind, run_data_none; [done|].
    cbn. by rewrite lookup_insert_ne.
  - by rewrite run_bind, run_data_none.
Qed.

Lemma iter_stored_ids redo a ids d :
  iter_ids (stored_ids redo a ids d) = Ok (work_list redo a (requested ids d)).
Proof.
  unfold stored_ids, work_list, requested. destruct redo; [|done].
  destruct ids as [l|]; [done|]. by destruct d.
Qed.

Lemma call_with_data ids user redo kwargs w d a k :
  ready (self w) d a k →
  __call__ present ids user redo kwargs w
  = annotate present
      {| active := true; interface_data := d; interface_kwargs := k ∪ kwargs |}
      0 (work_list redo a (requested ids d))
      {| self := <["ids" := stored_ids redo a ids d]>
                   (after_user user (self w));
         stdout := stdout w; human := human w; presented := presented w |}.
Proof.
  intros [Hd Ha Hk]. unfold __call__. rewrite run_bind.
  set (w1 := {| self := after_user user (self w); stdout := stdout w;
                human := human w; presented := presented w |}).
  assert (Hw1 : (if py_truthy (of_user user)
                 then setattr "user" (of_user user) else mret ()) w = (Ok (), w1)).
  { unfold w1, after_user. destruct (py_truthy _); [done|]. by destruct w. }
  rewrite Hw1.
  assert (Hd1 : self w1 !! "_data" = Some (OData d)).
  { cbn. by rewrite after_user_lookup. }
  assert (Ha1 : self w1 !! "_annotations" = Some (OAnnotations a)).
  { cbn. by rewrite after_user_lookup. }
  assert (Hk1 : self w1 !! "kwargs" = Some (ODict k)).
  { cbn. by rewrite after_user_lookup. }
  rewrite run_bind, (run_data_some w1 d) by done.
  rewrite run_bind. unfold getattr at 1, attr. rewrite Hk1.
  rewrite run_bind, run_ret.
  rewrite run_bind.
  set (o := from_option OList (Data_ids d) ids).
  assert (Hids : match ids with
                 | Some ids0 => mret (OList ids0)
                 | None => data_ids
                 end w1 = (Ok o, w1)).
  { destruct ids as [l|]; [done|].
    unfold data_ids. by rewrite run_bind, (run_data_some w1 d). }
  assert (Ho : iter_ids o = Ok (requested ids d)).
  { exact (iter_stored_ids true a ids d). }
  rewrite Hids.
  rewrite run_bind.
  set (wl := work_list redo a (requested ids d)).
  set (w2 := {| self := <["ids" := stored_ids redo a ids d]>
                          (after_user user (self w));
                stdout := stdout w; human := human w; presented := presented w |}).
  assert (Hw2 : (if negb redo
                 then lift (iter_ids o) ≫= λ ids0,
                      not_annotated ids0 [] ≫= λ l, setattr "ids" (OList l)
                 else setattr "ids" o) w1 = (Ok (), w2)).
  { unfold w2, stored_ids. fold o. destruct redo; cbn [negb]; [done|].
    rewrite run_bind. unfold lift. rewrite Ho.
    by rewrite run_bind, (not_annotated_ok a). }
  rewrite Hw2.
  rewrite run_bind. unfold Interface__init__.
  rewrite run_bind, (run_data_some w2 d)
    by (cbn; by rewrite lookup_insert_ne, after_user_lookup).
  rewrite run_ret. rewrite run_bind. unfold getattr, attr.
  cbn [self w2]. rewrite lookup_insert_eq.
  rewrite run_bind. unfold lift. by rewrite iter_stored_ids.
Qed.

Lemma Interface_call_annotations it id w a :
  self w !! "_annotations" = Some (OAnnotations a) →
  ∃ a', self (Interface__call__ present it id w).2 !! "_annotations"
        = Some (OAnnotations a').
Proof.
  intros Ha.
  unfold Interface__call__. rewrite run_bind. cbn [receive].
  rewrite run_bind. unfold lift at 1.
  destruct (fields _ id) as [fs|e]; [|by exists a].
  rewrite run_bind. unfold ask at 1. cbn [self human stdout presented].
  destruct (present _ _ _ _ _) as [h [answers|]]; [|by exists a].
  rewrite run_bind. unfold update at 1. cbn [self human stdout presented].
  rewrite (commit_ok _ _ a) by done.
  eexists. cbn. apply lookup_insert_eq.
Qed.

Lemma annotate_annotations it i ids w a :
  self w !! "_annotations" = Some (OAnnotations a) →
  ∃ a', self (annotate present it i ids w).2 !! "_annotations"
        = Some (OAnnotations a').
Proof.
  revert it i w a. induction ids as [|id ids IH]; intros it i w a Ha.
  - by exists a.
  - cbn [annotate]. rewrite run_bind. cbn [setattr].
    rewrite run_bind.
    set (w1 := {| self := _ |}).
    destruct (Interface_call_annotations it id w1 a) as [a' Ha'].
    { cbn. by rewrite lookup_insert_ne. }
    destruct (Interface__call__ present it id w1) as [[it'|e] w2]; cbn in Ha'.
    + destruct (negb (active it')); [by exists a'|]. by apply (IH _ _ _ a').
    + by exists a'.
Qed.

(** Every constructed annotator is a session, and a call leaves a
    session a session. *)
Lemma session_init tasks data user name save_data kwargs self0 :
  __init__ tasks data user name save_data kwargs = Ok self0 → session self0.
Proof.
  unfold __init__.
  set (o := annotations_setter tasks _).
  assert (Hk : o !! "kwargs" = Some (ODict kwargs)).
  { unfold o, annotations_setter. by destruct tasks. }
  assert (Ha : ∃ a, o !! "_annotations" = Some (OAnnotations a)).
  { unfold o, annotations_setter.
    destruct tasks; eexists; apply lookup_insert_eq. }
  destruct Ha as [a Ha].
  destruct (data_setter data o) as [o'|] eqn:Hset; [|done].
  cbn. intros [= <-].
  assert (Hframe : ∀ key, key ≠ "_data" → o' !! key = o !! key).
  { intros key Hkey. unfold data_setter in Hset. destruct data as [|d|raw].
    - injection Hset as <-. by rewrite lookup_insert_ne.
    - injection Hset as <-. by rewrite lookup_insert_ne.
    - unfold attr in Hset. rewrite Hk in Hset. cbn -[load_data] in Hset.
      destruct (load_data raw kwargs) as [r|]; cbn in Hset; [|done].
      injection Hset as <-. by rewrite lookup_insert_ne. }
  assert (Hdata : o' !! "_data" = Some ONone ∨ ∃ d, o' !! "_data" = Some (OData d)).
  { unfold data_setter in Hset. destruct data as [|d|raw].
    - injection Hset as <-. left. apply lookup_insert_eq.
    - injection Hset as <-. right. exists d. apply lookup_insert_eq.
    - unfold attr in Hset. rewrite Hk in Hset. cbn -[load_data] in Hset.
      destruct (load_data raw kwargs) as [[d|]|]; cbn in Hset; [| |done];
        injection Hset as <-; [right; exists d|left]; apply lookup_insert_eq. }
  split.
  - exists kwargs. by rewrite lookup_insert_ne, Hframe.
  - exists a. by rewrite lookup_insert_ne, Hframe.
  - by rewrite lookup_insert_ne.
Qed.

Lemma session_call ids user redo kwargs w :
  session (self w) → session (self (__call__ present ids user redo kwargs w).2).
Proof.
  intros [[k Hk] [a Ha] [Hd|[d Hd]]].
  - rewrite call_without_data by done. cbn.
    split; rewrite after_user_lookup by done; eauto.
  - rewrite (call_with_data _ _ _ _ _ d a k) by done.
    set (w2 := {| self := _ |}).
    destruct (annotate_annotations
                {| active := true; interface_data := d; interface_kwargs := k ∪ kwargs |}
                0 (work_list redo a (requested ids d)) w2 a) as [a' Ha'].
    { cbn. by rewrite lookup_insert_ne, after_user_lookup. }
    split.
    + exists k. rewrite annotate_frame by done. cbn.
      by rewrite lookup_insert_ne, after_user_lookup.
    + by exists a'.
    + right. exists d. rewrite annotate_frame by done. cbn.
      by rewrite lookup_insert_ne, after_user_lookup.
Qed.

(** Every constructed annotator has the attributes that [__getstate__]
    reads, and a call leaves it so. *)
Lemma init_picklable tasks data user name save_data kwargs self0 :
  __init__ tasks data user name save_data kwargs = Ok self0 → picklable self0.
Proof.
  intros Hinit. pose proof (session_init _ _ _ _ _ _ _ Hinit) as [_ _ Hd].
  unfold __init__ in Hinit.
  destruct (data_setter data _) as [o'|]; [|done].
  cbn in Hinit. injection Hinit as <-.
  exists (OBool save_data). split; [apply lookup_insert_eq|].
  intros _. destruct Hd as [Hd|[d Hd]]; rewrite Hd; eauto.
Qed.

Lemma call_picklable ids user redo kwargs w :
  session (self w) →
  picklable (self w) →
  picklable (self (__call__ present ids user redo kwargs w).2).
Proof.
  intros [[k Hk] [a Ha] Hd] (v & Hv & Hdata).
  assert (Hframe : ∀ key, key = "save_data" ∨ key = "_data" →
            self (__call__ present ids user redo kwargs w).2 !! key
            = self w !! key).
  { intros key Hkey. destruct Hd as [Hd|[d Hd]].
    - rewrite call_without_data by done. cbn.
      apply after_user_lookup. by destruct Hkey as [-> | ->].
    - rewrite (call_with_data _ _ _ _ _ d a k) by done.
      rewrite annotate_frame by (by destruct Hkey as [-> | ->]). cbn.
      rewrite lookup_insert_ne, after_user_lookup;
        by destruct Hkey as [-> | ->]. }
  exists v. rewrite !Hframe by auto. done.
Qed.

Lemma not_elem_of_take {A} (x : A) n (l : list A) : x ∉ l → x ∉ take n l.
Proof. intros Hx Hin. apply Hx. eapply subseteq_take, Hin. Qed.

(** ** The claims about a call *)

(** C1.  An id that the ledger already has is never presented by a call
    with [redo=False]: it is not among the ids that the call hands to
    the interface, and when data is attached it is not in the work list
    [self.ids] that the call computes. *)
Theorem annotated_ids_never_presented w ids user kwargs a x :
  session (self w) →
  self w !! "_annotations" = Some (OAnnotations a) →
  x ∈ ledger_index a →
  let w' := (__call__ present ids user false kwargs w).2 in
  (∃ new, presented w' = presented w ++ new ∧ x ∉ new) ∧
  (∀ d, self w !! "_data" = Some (OData d) →
        ∃ l, self w' !! "ids" = Some (OList l) ∧ x ∉ l).
Proof.
  intros [[k Hk] _ [Hd|[d Hd]]] Ha Hx w'; subst w'.
  - rewrite call_without_data by done. cbn. split.
    + exists []. split; [by rewrite app_nil_r|apply not_elem_of_nil].
    + intros d Hd'. congruence.
  - rewrite (call_with_data _ _ _ _ _ d a k) by done.
    cbn [work_list stored_ids].
    assert (Hwl : x ∉ unannotated a (requested ids d)).
    { rewrite elem_of_unannotated. tauto. }
    split.
    + destruct (annotate_presented
                  {| active := true; interface_data := d;
                     interface_kwargs := k ∪ kwargs |}
                  0 (unannotated a (requested ids d))
                  {| self := <["ids" := OList (unannotated a (requested ids d))]>
                               (after_user user (self w));
                     stdout := stdout w; human := human w;
                     presented := presented w |}) as [n Hn].
      exists (take n (unannotated a (requested ids d))).
      split; [exact Hn|by apply not_elem_of_take].
    + intros d' Hd'. assert (d' = d) as -> by congruence.
      exists (unannotated a (requested ids d)).
      rewrite annotate_frame by done. cbn.
      by rewrite lookup_insert_eq.
Qed.




(** C4, as the code has it.  [__getstate__] copies every attribute but
    ['_data']: after a call on a session with data, the saved state
    holds under ['ids'] what the call stored there, which yields the
    work list, and under ['i'] the position, as the live object does; it
    agrees with the live object on every attribute but ['_data'], which
    it does not have when [save_data] is falsy and has as the live
    object does when [save_data] is truthy. *)
Theorem getstate_keeps_cursor w ids user redo kwargs d a k v :
  ready (self w) d a k →
  self w !! "save_data" = Some v →
  let w' := (__call__ present ids user redo kwargs w).2 in
  ∃ state,
    __getstate__ (self w') = Ok state ∧
    state !! "ids" = Some (stored_ids redo a ids d) ∧
    iter_ids (stored_ids redo a ids d) = Ok (work_list redo a (requested ids d)) ∧
    state !! "i" = self w' !! "i" ∧
    (∀ key, key ≠ "_data" → state !! key = self w' !! key) ∧
    self w' !! "_data" = Some (OData d) ∧
    (py_truthy v = false → state !! "_data" = None) ∧
    (py_truthy v = true → state = self w').
Proof.
  intros Hready Hv w'.
  assert (Hkeep : ∀ key, key ≠ "i" → key ≠ "_annotations" → key ≠ "ids" →
            key ≠ "user" → self w' !! key = self w !! key).
  { intros key H1 H2 H3 H4. subst w'.
    rewrite (call_with_data _ _ _ _ _ d a k) by done.
    rewrite annotate_frame by done. cbn.
    by rewrite lookup_insert_ne, after_user_lookup. }
  assert (Hids : self w' !! "ids" = Some (stored_ids redo a ids d)).
  { subst w'. rewrite (call_with_data _ _ _ _ _ d a k) by done.
    rewrite annotate_frame by done. cbn. by rewrite lookup_insert_eq. }
  assert (Hd : self w' !! "_data" = Some (OData d)).
  { rewrite Hkeep by done. by destruct Hready. }
  assert (Hv' : self w' !! "save_data" = Some v) by (by rewrite Hkeep).
  unfold __getstate__, attr. rewrite Hv'. cbn [mbind Result_bind].
  destruct (py_truthy v) eqn:Htruthy; cbn [negb].
  - exists (self w'). split_and!; try done.
    apply iter_stored_ids.
  - rewrite Hd. exists (delete "_data" (self w')). split_and!; try done.
    + by rewrite lookup_delete_ne.
    + apply iter_stored_ids.
    + by rewrite lookup_delete_ne.
    + intros key Hkey. by rewrite lookup_delete_ne.
    + intros _. apply lookup_delete_eq.
Qed.

(** A label that the index of a frame does not have raises [KeyError]. *)
Lemma loc_absent df id cols : id ∉ index df → loc df id cols = Raise KeyError.
Proof.
  intros Hid. unfold loc.
  destruct (filter (λ r, r.1 = id) (rows df)) as [|r rs] eqn:Hf; [done|].
  exfalso. apply Hid.
  assert (Hr : r ∈ filter (λ r, r.1 = id) (rows df)) by (rewrite Hf; left).
  apply list_elem_of_filter in Hr as [<- Hr].
  unfold index. apply list_elem_of_fmap. by exists r.
Qed.


(** C7, as the code has it.  Without data a call returns [None] and does
    not raise; it presents nothing and prints the note that no data is
    loaded; of the session it changes the stored user, when the [user]
    argument is truthy, and nothing else. *)
Theorem call_without_data_returns w ids user redo kwargs :
  self w !! "_data" = Some ONone →
  let r := __call__ present ids user redo kwargs w in
  r.1 = Ok () ∧
  presented r.2 = presented w ∧
  human r.2 = human w ∧
  stdout r.2 = stdout w ++ [no_data_message] ∧
  self r.2 = after_user user (self w) ∧
  (py_truthy (of_user user) = false → self r.2 = self w).
Proof.
  intros Hd r; subst r. rewrite call_without_data by done. cbn.
  split_and!; try done.
  unfold after_user. by intros ->.
Qed.

(** C8.  With [redo=False] the work list that a call computes is the
    subsequence of the requested ids that the ledger does not have, in
    their order: it is the filter of the requested sequence, a sublist
    of it, and holds exactly its ids that are not in the ledger. *)
Theorem filtering_preserves_order w ids user kwargs d a k :
  ready (self w) d a k →
  let w' := (__call__ present ids user false kwargs w).2 in
  ∃ wl, self w' !! "ids" = Some (OList wl) ∧
        wl = unannotated a (requested ids d) ∧
        wl = filter (λ id, id ∉ ledger_index a) (requested ids d) ∧
        wl `sublist_of` requested ids d ∧
        ∀ x, x ∈ wl ↔ x ∈ requested ids d ∧ x ∉ ledger_index a.
Proof.
  intros Hready w'; subst w'.
  rewrite (call_with_data _ _ _ _ _ d a k) by done.
  cbn [work_list stored_ids].
  exists (unannotated a (requested ids d)). split_and!.
  - rewrite annotate_frame by done. cbn. by rewrite lookup_insert_eq.
  - done.
  - apply unannotated_filter.
  - apply unannotated_sublist.
  - intros x. apply elem_of_unannotated.
Qed.

(** The rest of a call does not touch the stored user. *)
Lemma call_user ids user redo kwargs w :
  session (self w) →
  self (__call__ present ids user redo kwargs w).2 !! "user"
  = after_user user (self w) !! "user".
Proof.
  intros [[k Hk] [a Ha] [Hd|[d Hd]]].
  - by rewrite call_without_data.
  - rewrite (call_with_data _ _ _ _ _ d a k) by done.
    rewrite annotate_frame by done. cbn. by rewrite lookup_insert_ne.
Qed.

(** C9.  A truthy [user] argument replaces the stored user, with or
    without data, and the replacement lasts: a later call without a
    user finds it.  A falsy [user] argument ([None] or the empty string)
    leaves the stored user as it is. *)
Theorem user_argument w ids user redo kwargs :
  session (self w) →
  let w' := (__call__ present ids user redo kwargs w).2 in
  (∀ u, user = Some u → u ≠ "" →
        self w' !! "user" = Some (OStr u) ∧
        ∀ ids2 redo2 kwargs2,
          self (__call__ present ids2 None redo2 kwargs2 w').2 !! "user"
          = Some (OStr u)) ∧
  (user = None ∨ user = Some "" → self w' !! "user" = self w !! "user").
Proof.
  intros Hs w'. split.
  - intros u -> Hu.
    assert (Hw' : self w' !! "user" = Some (OStr u)).
    { subst w'. rewrite call_user by done. unfold after_user. cbn.
      rewrite bool_decide_true by done. apply lookup_insert_eq. }
    split; [done|]. intros ids2 redo2 kwargs2.
    rewrite call_user by (by apply session_call). done.
  - intros Hu. subst w'. rewrite call_user by done.
    by destruct Hu as [-> | ->].
Qed.

End SessionFacts.


(** ** Saving and loading *)

Section PickleFacts.

Context {Blob : Type}.
Variable dumps : gmap string PyObj → Blob.
Variable loads : Blob → option (gmap string PyObj).

(** What is asked of the pickle: loading gives back the state that was
    dumped, for every state that it takes. *)
Hypothesis loads_dumps :
  ∀ state, state_pickles state → loads (dumps state) = Some state.

Lemma getstate_picklable (self0 : gmap string PyObj) :
  picklable self0 →
  ∃ state, __getstate__ self0 = Ok state ∧
           is_Some (state !! "save_data") ∧
           ∀ key, key ≠ "_data" → state !! key = self0 !! key.
Proof.
  intros (v & Hv & Hdata). unfold __getstate__, attr. rewrite Hv. cbn.
  destruct (py_truthy v); cbn.
  - exists self0. by rewrite Hv.
  - destruct Hdata as [d Hd]; [done|]. rewrite Hd.
    exists (delete "_data" self0). split; [done|]. split.
    + by rewrite lookup_delete_ne, Hv.
    + intros key Hkey. by rewrite lookup_delete_ne.
Qed.

Lemma setstate_frame (state : gmap string PyObj) key :
  key ≠ "_data" → __setstate__ ∅ state !! key = state !! key.
Proof.
  intros Hkey. unfold __setstate__. rewrite (right_id_L ∅ (∪)).
  case_bool_decide; [done|]. by rewrite lookup_insert_ne.
Qed.

Lemma commit_all_frame commits (self0 self1 : gmap string PyObj) key :
  commit_all commits self0 = Ok self1 →
  key ≠ "_annotations" → self1 !! key = self0 !! key.
Proof.
  revert self0. induction commits as [|[id answers] commits IH]; intros self0.
  - by intros [= ->].
  - cbn [commit_all]. destruct (commit id answers self0) as [o|] eqn:Hc; [|done].
    cbn. intros Hrest Hkey. rewrite (IH o) by done.
    by apply (commit_frame id answers self0).
Qed.

Lemma commit_all_picklable commits (self0 self1 : gmap string PyObj) :
  commit_all commits self0 = Ok self1 → picklable self0 → picklable self1.
Proof.
  intros Hc (v & Hv & Hdata). exists v.
  rewrite !(commit_all_frame commits self0 self1) by done. done.
Qed.

Lemma save_pickles (self0 state : gmap string PyObj) filename
    (fs : gmap string Blob) :
  __getstate__ self0 = Ok state →
  (state_pickles state →
   save dumps self0 filename fs = Ok (<[filename := dumps state]> fs) ∧
   load loads filename (<[filename := dumps state]> fs)
   = Ok (__setstate__ ∅ state)) ∧
  (¬ state_pickles state → save dumps self0 filename fs = Raise TypeError).
Proof.
  intros Hstate. unfold save, pickle_dump. rewrite Hstate.
  cbn [mbind Result_bind]. split.
  - intros Hp. rewrite bool_decide_true by done. split; [done|].
    unfold load, pickle_load. by rewrite lookup_insert_eq, loads_dumps.
  - intros Hp. by rewrite bool_decide_false.
Qed.

(** A commit puts no view of a dictionary into the session. *)
Lemma commit_state id answers (self0 o state0 : gmap string PyObj) :
  commit id answers self0 = Ok o →
  __getstate__ self0 = Ok state0 →
  ∃ state1, __getstate__ o = Ok state1 ∧
            (state_pickles state0 ↔ state_pickles state1).
Proof.
  unfold commit, attr.
  destruct (self0 !! "_annotations") as [[| | | | | | | |a]|] eqn:Ha; try done.
  cbn. intros [= <-] Hstate.
  set (new := OAnnotations (Annotations.upsert id answers a)).
  assert (Hiff : ∀ m : gmap string PyObj,
            m !! "_annotations" = Some (OAnnotations a) →
            state_pickles m ↔ state_pickles (<["_annotations" := new]> m)).
  { intros m Hm. unfold state_pickles, map_Forall. split.
    - intros Hall key x. destruct (decide (key = "_annotations")) as [->|Hne].
      + rewrite lookup_insert_eq. by intros [= <-].
      + rewrite lookup_insert_ne by done. apply Hall.
    - intros Hall key x Hx. destruct (decide (key = "_annotations")) as [->|Hne].
      + rewrite Hm in Hx. by injection Hx as <-.
      + apply (Hall key). by rewrite lookup_insert_ne. }
  unfold __getstate__, attr in *.
  rewrite !lookup_insert_ne by done.
  destruct (self0 !! "save_data") as [v|]; [|done].
  cbn [mbind Result_bind] in *.
  destruct (negb (py_truthy v)).
  - destruct (self0 !! "_data") as [d|]; [|done].
    injection Hstate as <-. eexists. split; [done|].
    rewrite delete_insert_ne by done. apply Hiff.
    by rewrite lookup_delete_ne.
  - injection Hstate as <-. eexists. split; [done|]. by apply Hiff.
Qed.

Lemma commit_all_state commits (self0 self1 state0 : gmap string PyObj) :
  commit_all commits self0 = Ok self1 →
  __getstate__ self0 = Ok state0 →
  ∃ state1, __getstate__ self1 = Ok state1 ∧
            (state_pickles state0 ↔ state_pickles state1).
Proof.
  revert self0 state0.
  induction commits as [|[id answers] commits IH]; intros self0 state0.
  - intros [= <-] Hstate. by exists state0.
  - cbn [commit_all]. destruct (commit id answers self0) as [o|] eqn:Hc; [|done].
    cbn. intros Hrest Hstate.
    destruct (commit_state id answers self0 o state0 Hc Hstate)
      as (state' & Hstate' & Hiff).
    destruct (IH o state' Hrest Hstate') as (state1 & Hstate1 & Hiff1).
    exists state1. split; [done|]. by rewrite Hiff.
Qed.

(** X20.  Commits put no view of a dictionary into a session: when the
    state of a session can be pickled, then whatever is committed
    afterwards, the session is saved, and loaded again it comes back
    with the same tasks and the same annotation table, differing from
    the saved one at ['_data'] at most; and when the state holds a view
    of a dictionary, [save] raises [TypeError], whatever is committed. *)
Theorem save_load_roundtrip (self0 self1 state0 : gmap string PyObj) commits
    filename (fs : gmap string Blob) :
  __getstate__ self0 = Ok state0 →
  commit_all commits self0 = Ok self1 →
  (state_pickles state0 →
   ∃ fs' self',
     save dumps self1 filename fs = Ok fs' ∧
     load loads filename fs' = Ok self' ∧
     annotated self' = annotated self1 ∧
     tasks_of self' = tasks_of self1 ∧
     ∀ key, key ≠ "_data" → self' !! key = self1 !! key) ∧
  (¬ state_pickles state0 → save dumps self1 filename fs = Raise TypeError).
Proof.
  intros Hstate0 Hc.
  destruct (commit_all_state commits self0 self1 state0 Hc Hstate0)
    as (state & Hstate & Hiff).
  destruct (save_pickles self1 state filename fs Hstate) as [Hyes Hno].
  split; [|intros Hp; apply Hno; by rewrite <- Hiff].
  intros Hp. destruct Hyes as [Hsave Hload]; [by apply Hiff|].
  assert (Hframe : ∀ key, key ≠ "_data" → state !! key = self1 !! key).
  { intros key Hkey. unfold __getstate__ in Hstate.
    destruct (attr self1 "save_data") as [v|]; [|done]. cbn in Hstate.
    destruct (negb (py_truthy v)).
    - destruct (self1 !! "_data"); [|done].
      injection Hstate as <-. by rewrite lookup_delete_ne.
    - by injection Hstate as <-. }
  assert (Hkeys : ∀ key, key ≠ "_data" →
                         __setstate__ ∅ state !! key = self1 !! key).
  { intros key Hkey. by rewrite setstate_frame, Hframe. }
  exists (<[filename := dumps state]> fs), (__setstate__ ∅ state).
  split_and!; [done|done| | |exact Hkeys].
  - unfold annotated, attr. by rewrite Hkeys.
  - unfold tasks_of, attr. by rewrite Hkeys.
Qed.

End PickleFacts.

(** ** The claims on concrete sessions *)

Lemma session_abc_ready : ready session_abc adapter_abc ledger_empty ∅.
Proof. split; vm_compute; reflexivity. Qed.

Lemma session_abc_annotated_ready :
  ready session_abc_annotated adapter_abc ledger_abc ∅.
Proof. split; vm_compute; reflexivity. Qed.

Lemma ready_session (self0 : gmap string PyObj) d a k :
  ready self0 d a k → session self0.
Proof. intros [Hd Ha Hk]. split; eauto. Qed.

Lemma session_nodata_session : session session_nodata.
Proof.
  split; [exists ∅|exists ledger_empty|left]; vm_compute; reflexivity.
Qed.

(** Scenario A of the specification: once the items 0 and 1 of
    ["a", "b", "c"] are annotated, a call presents the item 2 only. *)
Example scenario_A :
  presented (__call__ says_yes None None false ∅
               (start session_abc_annotated ())).2 = [SInt 2].
Proof. vm_compute. reflexivity. Qed.

Lemma annotated_ids_never_presented_witness :
  let w := start session_abc_annotated () in
  let w' := (__call__ says_yes None None false ∅ w).2 in
  (∃ new, presented w' = presented w ++ new ∧ SInt 0 ∉ new) ∧
  (∀ d, self w !! "_data" = Some (OData d) →
        ∃ l, self w' !! "ids" = Some (OList l) ∧ SInt 0 ∉ l).
Proof.
  apply (annotated_ids_never_presented says_yes
           (start session_abc_annotated ()) None None ∅ ledger_abc (SInt 0)).
  - exact (ready_session _ _ _ _ session_abc_annotated_ready).
  - vm_compute. reflexivity.
  - vm_compute. left.
Defined.


(** With [redo=True] the items 0 and 1, which are annotated, are
    presented again, and the run ends at the item 1, where this human
    stops. *)
Example redo_until_the_stop_signal :
  let r := __call__ (stops_at (SInt 1)) None None true ∅
             (start session_abc_annotated ()) in
  r.1 = Ok () ∧ presented r.2 = [SInt 0; SInt 1].
Proof. cbv zeta. split; vm_compute; reflexivity. Qed.


Lemma getstate_keeps_cursor_witness :
  let w := start session_abc () in
  let w' := (__call__ says_yes None None false ∅ w).2 in
  ∃ state,
    __getstate__ (self w') = Ok state ∧
    state !! "ids" = Some (stored_ids false ledger_empty None adapter_abc) ∧
    iter_ids (stored_ids false ledger_empty None adapter_abc)
    = Ok (work_list false ledger_empty (requested None adapter_abc)) ∧
    state !! "i" = self w' !! "i" ∧
    (∀ key, key ≠ "_data" → state !! key = self w' !! key) ∧
    self w' !! "_data" = Some (OData adapter_abc) ∧
    (py_truthy (OBool false) = false → state !! "_data" = None) ∧
    (py_truthy (OBool false) = true → state = self w').
Proof.
  apply (getstate_keeps_cursor says_yes (start session_abc ()) None None
           false ∅ adapter_abc ledger_empty ∅ (OBool false)).
  - exact session_abc_ready.
  - vm_compute. reflexivity.
Defined.

(** C4 fails as it is stated: the state saved after a run holds the work
    list and the position of that run. *)
Lemma cursor_is_saved :
  let w' := (__call__ says_yes None None false ∅ (start session_abc ())).2 in
  ∃ state,
    __getstate__ (self w') = Ok state ∧
    state !! "ids" = Some (OList [SInt 0; SInt 1; SInt 2]) ∧
    state !! "i" = Some (OInt 2) ∧
    ¬ cursor_excluded state.
Proof.
  cbv zeta.
  destruct (__getstate__
              (self (__call__ says_yes None None false ∅
                       (start session_abc ())).2)) as [state|e] eqn:Hstate.
  - exists state. split; [reflexivity|].
    assert (Hids : state !! "ids" = Some (OList [SInt 0; SInt 1; SInt 2])).
    { vm_compute in Hstate. injection Hstate as <-. vm_compute. reflexivity. }
    assert (Hi : state !! "i" = Some (OInt 2)).
    { vm_compute in Hstate. injection Hstate as <-. vm_compute. reflexivity. }
    split_and!; [done|done|]. intros [Hno _]. congruence.
  - exfalso. vm_compute in Hstate. discriminate Hstate.
Qed.


(** Of the ids 99 and 98, neither of which the adapter has, the first
    is in the ledger and is dropped; the second is then the first id of
    the work list, and the run fails on it. *)
Example unknown_id_after_a_dropped_one :
  let r := __call__ says_yes (Some [SInt 99; SInt 98]) None false ∅
             (start session_news ()) in
  work_list false (Annotations.from_df earlier) [SInt 99; SInt 98] = [SInt 98] ∧
  r.1 = Raise KeyError ∧ presented r.2 = [SInt 98].
Proof. cbv zeta. split_and!; vm_compute; reflexivity. Qed.


Lemma call_without_data_returns_witness :
  let w := start session_nodata () in
  let r := __call__ stops None (Some "bob") false ∅ w in
  r.1 = Ok () ∧
  presented r.2 = presented w ∧
  human r.2 = human w ∧
  stdout r.2 = stdout w ++ [no_data_message] ∧
  self r.2 = after_user (Some "bob") (self w) ∧
  (py_truthy (of_user (Some "bob")) = false → self r.2 = self w).
Proof.
  apply (call_without_data_returns stops (start session_nodata ()) None
           (Some "bob") false ∅).
  vm_compute. reflexivity.
Defined.

(** C7 fails as it is stated: a call without data that names a user
    changes the session, whose stored user it replaces. *)
Lemma call_without_data_sets_user :
  let w := start session_nodata () in
  let r := __call__ stops None (Some "bob") false ∅ w in
  self w !! "_data" = Some ONone ∧
  self w !! "user" = Some ONone ∧
  r.1 = Ok () ∧
  self r.2 !! "user" = Some (OStr "bob") ∧
  self r.2 ≠ self w.
Proof.
  cbv zeta.
  assert (Hu : self (__call__ stops None (Some "bob") false ∅
                       (start session_nodata ())).2 !! "user"
               = Some (OStr "bob")) by (vm_compute; reflexivity).
  assert (Hw : self (start session_nodata ()) !! "user" = Some ONone)
    by (vm_compute; reflexivity).
  split_and!; [vm_compute; reflexivity|done|vm_compute; reflexivity|done|].
  intros Heq. rewrite Heq in Hu. congruence.
Qed.

Lemma filtering_preserves_order_witness :
  let w := start session_abc_annotated () in
  let w' := (__call__ says_yes (Some [SInt 2; SInt 1; SInt 0; SInt 2]) None false ∅ w).2 in
  ∃ wl, self w' !! "ids" = Some (OList wl) ∧
        wl = unannotated ledger_abc
               (requested (Some [SInt 2; SInt 1; SInt 0; SInt 2]) adapter_abc) ∧
        wl = filter (λ id, id ∉ ledger_index ledger_abc)
               (requested (Some [SInt 2; SInt 1; SInt 0; SInt 2]) adapter_abc) ∧
        wl `sublist_of` requested (Some [SInt 2; SInt 1; SInt 0; SInt 2]) adapter_abc ∧
        ∀ x, x ∈ wl ↔
             x ∈ requested (Some [SInt 2; SInt 1; SInt 0; SInt 2]) adapter_abc ∧
             x ∉ ledger_index ledger_abc.
Proof.
  exact (filtering_preserves_order says_yes (start session_abc_annotated ())
           (Some [SInt 2; SInt 1; SInt 0; SInt 2]) None ∅ adapter_abc ledger_abc ∅
           session_abc_annotated_ready).
Defined.

Example filtering_keeps_duplicates_in_place :
  self (__call__ says_yes (Some [SInt 2; SInt 1; SInt 0; SInt 2]) None false ∅
          (start session_abc_annotated ())).2 !! "ids"
  = Some (OList [SInt 2; SInt 2]).
Proof. vm_compute. reflexivity. Qed.

Lemma user_argument_witness :
  let w := start session_nodata () in
  let w' := (__call__ stops None (Some "bob") false ∅ w).2 in
  (∀ u, Some "bob" = Some u → u ≠ "" →
        self w' !! "user" = Some (OStr u) ∧
        ∀ ids2 redo2 kwargs2,
          self (__call__ stops ids2 None redo2 kwargs2 w').2 !! "user"
          = Some (OStr u)) ∧
  (Some "bob" = None ∨ Some "bob" = Some "" → self w' !! "user" = self w !! "user").
Proof.
  exact (user_argument stops (start session_nodata ()) None (Some "bob") false ∅
           session_nodata_session).
Defined.

Lemma save_load_roundtrip_witness :
  ∃ fs' self',
    save plain_dumps session_abc_annotated "annotator.pkl" ∅ = Ok fs' ∧
    load plain_loads "annotator.pkl" fs' = Ok self' ∧
    annotated self' = annotated session_abc_annotated ∧
    tasks_of self' = tasks_of session_abc_annotated ∧
    ∀ key, key ≠ "_data" → self' !! key = session_abc_annotated !! key.
Proof.
  refine (proj1 (save_load_roundtrip plain_dumps plain_loads (λ state _, eq_refl)
                   session_abc session_abc_annotated (delete "_data" session_abc)
                   [(SInt 0, [SInt 1]); (SInt 1, [SInt 0])] "annotator.pkl" ∅
                   _ _) _).
  - vm_compute. reflexivity.
  - vm_compute. reflexivity.
  - apply (bool_decide_unpack _). vm_compute. exact I.
Defined.

(** C3 fails on the code.  An annotator over a dictionary keeps the
    views [data.keys()] and [data.values()] in its adapter, and a call
    with [redo=True] and no [ids] stores the first of them as
    [self.ids]; [pickle] takes neither.  So an annotator over
    [{"tea": 3, "rye": 5}] with [save_data=True] is not saved: [save]
    raises [TypeError]; and the same annotator with [save_data=False] is
    not saved either once it was called with [redo=True]. *)
Lemma keyed_session_is_not_saved :
  let w' := (__call__ says_yes None None true ∅
               (start session_prices_bare ())).2 in
  load_data prices ∅ = Ok (Some adapter_prices) ∧
  session_prices !! "_data" = Some (OData adapter_prices) ∧
  session_prices !! "save_data" = Some (OBool true) ∧
  save plain_dumps session_prices "annotator.pkl" ∅ = Raise TypeError ∧
  session_prices_bare !! "save_data" = Some (OBool false) ∧
  self w' !! "ids" = Some (OKeys [SStr "tea"; SStr "rye"]) ∧
  save plain_dumps (self w') "annotator.pkl" ∅ = Raise TypeError.
Proof. cbv zeta. split_and!; vm_compute; reflexivity. Qed.

(** Scenario E of the specification: saved without the data and loaded
    again, the session has no data and the annotations it had. *)
Example scenario_E :
  ∃ fs self',
    save plain_dumps session_abc_annotated "annotator.pkl" ∅ = Ok fs ∧
    load plain_loads "annotator.pkl" fs = Ok self' ∧
    self' !! "_data" = Some ONone ∧
    annotated self'
    = Ok {| columns := ["flag"];
            rows := [(SInt 0, [SInt 1]); (SInt 1, [SInt 0])] |}.
Proof.
  eexists _, _. split_and!; [reflexivity|reflexivity|..]; vm_compute; reflexivity.
Qed.

(** * More properties of the code *)

(** ** The data adapters *)

Lemma accepts_nothing (kwargs : gmap string KwVal) :
  accepts [] kwargs = true ↔ kwargs = ∅.
Proof.
  unfold accepts. rewrite bool_decide_eq_true. cbn.
  split.
  - intros Hsub. apply dom_empty_iff_L. apply (anti_symm (⊆)); [done|].
    apply empty_subseteq.
  - intros ->. by rewrite dom_empty_L.
Qed.

Lemma range_lookup n i : i < n → range n !! i = Some (SInt (Z.of_nat i)).
Proof.
  intros Hi. unfold range. rewrite list_lookup_fmap.
  by rewrite lookup_seq_lt.
Qed.

Lemma range_NoDup n : NoDup (range n).
Proof.
  unfold range. apply NoDup_fmap_2; [|apply NoDup_seq].
  intros i j [= Hij]. lia.
Qed.

Lemma sequence_has_len data :
  isinstance data Sequence = true → ∃ n, py_len data = Ok n.
Proof. destruct data as [| | | | | |[]]; try done; by eexists. Qed.

(** X1.  A sequence (a list, a tuple, a string) given without keyword
    arguments always gets the sequential adapter; its ids are the
    positions 0, 1, ..., n-1 in order, without repetition, and its
    length is the length of the sequence. *)
Theorem load_data_sequence data :
  isinstance data Sequence = true →
  ∃ n, py_len data = Ok n ∧
       load_data data ∅ = Ok (Some (Data_List data (range n) data)) ∧
       Data__len__ (Data_List data (range n) data) = n ∧
       NoDup (range n) ∧
       ∀ i, i < n → range n !! i = Some (SInt (Z.of_nat i)).
Proof.
  intros Hseq. destruct (sequence_has_len data Hseq) as [n Hn].
  exists n. split_and!.
  - done.
  - unfold load_data. rewrite registry_order. cbn [load_data_from kind].
    rewrite Hseq. cbn [construct].
    rewrite (proj2 (accepts_nothing ∅)) by done.
    unfold Data_List__init__. by rewrite Hn.
  - unfold Data__len__, range. cbn. by rewrite length_fmap, length_seq.
  - apply range_NoDup.
  - apply range_lookup.
Qed.

Lemma load_data_sequence_witness :
  ∃ n, py_len (PyScalar (SStr "abc")) = Ok n ∧
       load_data (PyScalar (SStr "abc")) ∅
       = Ok (Some (Data_List (PyScalar (SStr "abc")) (range n) (PyScalar (SStr "abc")))) ∧
       Data__len__ (Data_List (PyScalar (SStr "abc")) (range n) (PyScalar (SStr "abc"))) = n ∧
       NoDup (range n) ∧
       ∀ i, i < n → range n !! i = Some (SInt (Z.of_nat i)).
Proof. apply (load_data_sequence (PyScalar (SStr "abc"))). reflexivity. Defined.

(** X2.  The constructors of the sequential and of the keyed adapter take
    no keyword argument, and the one of the tabular adapter takes
    [item_cols] and [id_col] only: [load_data] raises [TypeError] for a
    sequence or a mapping given with any keyword argument, and for a
    frame given with any other keyword argument. *)
Theorem load_data_keywords_rejected data (kwargs : gmap string KwVal) :
  (kwargs ≠ ∅ ∧
   (isinstance data Sequence = true ∨ isinstance data Mapping = true)) ∨
  (isinstance data pd_DataFrame = true ∧
   ∃ key, is_Some (kwargs !! key) ∧ key ≠ "item_cols" ∧ key ≠ "id_col") →
  load_data data kwargs = Raise TypeError.
Proof.
  assert (Hnone : kwargs ≠ ∅ → accepts [] kwargs = false).
  { intros Hne. destruct (accepts [] kwargs) eqn:Hacc; [|done].
    by apply accepts_nothing in Hacc. }
  assert (Hseq : kwargs ≠ ∅ → isinstance data Sequence = true →
                 load_data data kwargs = Raise TypeError).
  { intros Hne Hs. unfold load_data. rewrite registry_order.
    cbn [load_data_from kind]. rewrite Hs. cbn [construct].
    by rewrite Hnone. }
  intros [[Hne [Hs|Hm]]|[Hdf (key & Hkey & Hitem & Hid)]].
  - by apply Hseq.
  - destruct (isinstance data Sequence) eqn:Hs; [by apply Hseq|].
    unfold load_data. rewrite registry_order. cbn [load_data_from kind].
    rewrite Hs, Hm. cbn [construct]. by rewrite Hnone.
  - assert (Hne : kwargs ≠ ∅).
    { intros ->. rewrite lookup_empty in Hkey. by destruct Hkey. }
    destruct (isinstance data Sequence) eqn:Hs; [by apply Hseq|].
    destruct (isinstance data Mapping) eqn:Hm.
    { unfold load_data. rewrite registry_order. cbn [load_data_from kind].
      rewrite Hs, Hm. cbn [construct]. by rewrite Hnone. }
    unfold load_data. rewrite registry_order. cbn [load_data_from kind].
    rewrite Hs, Hm, Hdf. cbn [construct].
    assert (Hacc : accepts ["item_cols"; "id_col"] kwargs = false).
    { unfold accepts. apply bool_decide_eq_false. intros Hsub.
      apply elem_of_dom in Hkey. apply Hsub in Hkey.
      rewrite elem_of_list_to_set, !elem_of_cons, elem_of_nil in Hkey.
      tauto. }
    by rewrite Hacc.
Qed.

Lemma load_data_keywords_rejected_witness :
  load_data abc {["text_display" := KBool true]} = Raise TypeError.
Proof.
  apply load_data_keywords_rejected. left. split; [|by left].
  intros Heq. apply (f_equal (λ m : gmap string KwVal, m !! "text_display")) in Heq.
  vm_compute in Heq. discriminate Heq.
Defined.

Lemma column_pos_Some col df :
  col ∈ columns df → ∃ j, column_pos col df = Some j ∧ columns df !! j = Some col.
Proof.
  intros Hcol. unfold column_pos.
  destruct (list_find_elem_of (λ c, c = col) (columns df) col Hcol eq_refl)
    as [[j c] Hfind].
  rewrite Hfind. exists j. split; [done|].
  apply list_find_Some in Hfind as (Hj & -> & _). done.
Qed.

Lemma column_pos_None col df : col ∉ columns df → column_pos col df = None.
Proof.
  intros Hcol. unfold column_pos.
  destruct (list_find _ _) as [[j c]|] eqn:Hfind; [|done].
  apply list_find_Some in Hfind as (Hj & -> & _).
  exfalso. apply Hcol. by eapply list_elem_of_lookup_2.
Qed.

Lemma accepts_frame_keywords (kwargs : gmap string KwVal) :
  (∀ key, is_Some (kwargs !! key) → key = "item_cols" ∨ key = "id_col") →
  accepts ["item_cols"; "id_col"] kwargs = true.
Proof.
  intros Hkeys. unfold accepts. apply bool_decide_eq_true.
  intros key Hkey. apply elem_of_dom in Hkey.
  rewrite elem_of_list_to_set, !elem_of_cons.
  destruct (Hkeys key Hkey); auto.
Qed.

Lemma load_data_frame_init df (kwargs : gmap string KwVal) :
  accepts ["item_cols"; "id_col"] kwargs = true →
  load_data (PyDataFrame df) kwargs
  = (d ← Data_DataFrame__init__ df (default KNone (kwargs !! "item_cols"))
                                  (default KNone (kwargs !! "id_col"));
     Ok (Some d)).
Proof.
  intros Hkeys. unfold load_data. rewrite registry_order.
  cbn [load_data_from kind isinstance construct].
  by rewrite Hkeys.
Qed.

(** X3.  An [id_col] that is not a column of the frame makes the
    construction of the tabular adapter fail with the [KeyError] of
    [set_index], whatever [item_cols] is. *)
Theorem load_data_unknown_id_col df (kwargs : gmap string KwVal) col :
  accepts ["item_cols"; "id_col"] kwargs = true →
  kwargs !! "id_col" = Some (KStr col) →
  col ≠ "" →
  col ∉ columns df →
  load_data (PyDataFrame df) kwargs = Raise KeyError.
Proof.
  intros Hkeys Hid Hne Hcol. rewrite load_data_frame_init by done.
  rewrite Hid. unfold Data_DataFrame__init__. cbn [from_option id kw_truthy].
  rewrite bool_decide_true by done.
  unfold set_index. by rewrite column_pos_None.
Qed.

Lemma load_data_unknown_id_col_witness :
  load_data (PyDataFrame news)
    {["id_col" := KStr "id"; "item_cols" := KStrs ["title"]]}
  = Raise KeyError.
Proof.
  apply (load_data_unknown_id_col news _ "id").
  - vm_compute. reflexivity.
  - vm_compute. reflexivity.
  - discriminate.
  - apply (bool_decide_unpack _). vm_compute. exact I.
Defined.

Lemma not_elem_of_delete_NoDup {A} (l : list A) j x :
  NoDup l → l !! j = Some x → x ∉ delete j l.
Proof.
  intros Hnd Hj Hin. apply list_elem_of_lookup in Hin as [i Hi].
  destruct (decide (i < j)) as [Hlt|Hge].
  - rewrite list_lookup_delete_lt in Hi by done.
    pose proof (NoDup_lookup l i j x Hnd Hi Hj). lia.
  - rewrite list_lookup_delete_ge in Hi by lia.
    pose proof (NoDup_lookup l (S i) j x Hnd Hi Hj). lia.
Qed.

(** X4.  With [id_col] naming a column and [item_cols] left out, the ids
    of the tabular adapter are the cells of that column in the order of
    the rows, the adapter's frame loses the column and keeps its rows,
    and the adapter is as long as the frame; [item_cols] is taken from
    the frame as it was given, so it still lists the id column, which
    the adapter's frame no longer has when its column names are
    distinct. *)
Theorem load_data_id_col df col :
  col ≠ "" →
  col ∈ columns df →
  ∃ j df',
    column_pos col df = Some j ∧
    load_data (PyDataFrame df) {["id_col" := KStr col]}
    = Ok (Some (Data_DataFrame df' (columns df) (index df'))) ∧
    index df' = (λ r, default SNone (r.2 !! j)) <$> rows df ∧
    columns df' = delete j (columns df) ∧
    Data__len__ (Data_DataFrame df' (columns df) (index df')) = frame_len df ∧
    (NoDup (columns df) → col ∉ columns df').
Proof.
  intros Hne Hcol.
  destruct (column_pos_Some col df Hcol) as (j & Hpos & Hj).
  exists j. eexists. split; [done|]. split.
  - rewrite load_data_frame_init.
    + rewrite lookup_singleton_eq, lookup_singleton_ne by done.
      unfold Data_DataFrame__init__. cbn [from_option id kw_truthy negb].
      rewrite bool_decide_true by done.
      unfold set_index. rewrite Hpos. reflexivity.
    + apply accepts_frame_keywords. intros key [v Hv]. right.
      destruct (decide (key = "id_col")) as [|Hn]; [done|].
      rewrite lookup_singleton_ne in Hv by done. discriminate Hv.
  - split_and!.
    + unfold index. cbn. rewrite <- list_fmap_compose. done.
    + done.
    + unfold Data__len__, index, frame_len. cbn.
      by rewrite !length_fmap.
    + intros Hnd. cbn. by apply not_elem_of_delete_NoDup.
Qed.

Lemma load_data_id_col_witness :
  ∃ j df',
    column_pos "news_id" news = Some j ∧
    load_data (PyDataFrame news) {["id_col" := KStr "news_id"]}
    = Ok (Some (Data_DataFrame df' (columns news) (index df'))) ∧
    index df' = (λ r, default SNone (r.2 !! j)) <$> rows news ∧
    columns df' = delete j (columns news) ∧
    Data__len__ (Data_DataFrame df' (columns news) (index df')) = frame_len news ∧
    (NoDup (columns news) → "news_id" ∉ columns df').
Proof.
  apply (load_data_id_col news "news_id"); [discriminate|].
  apply (bool_decide_unpack _). vm_compute. exact I.
Defined.

(** X5.  One column name given as a string for [item_cols] is wrapped in
    a list: it yields the adapter that the list of that one name
    yields. *)
Theorem load_data_item_cols_string df (kwargs : gmap string KwVal) s :
  s ≠ "" →
  load_data (PyDataFrame df) (<["item_cols" := KStr s]> kwargs)
  = load_data (PyDataFrame df) (<["item_cols" := KStrs [s]]> kwargs).
Proof.
  intros Hs. unfold load_data. rewrite registry_order.
  cbn [load_data_from kind isinstance construct].
  assert (Hacc : accepts ["item_cols"; "id_col"] (<["item_cols" := KStr s]> kwargs)
                 = accepts ["item_cols"; "id_col"] (<["item_cols" := KStrs [s]]> kwargs)).
  { unfold accepts. by rewrite !dom_insert_L. }
  rewrite Hacc. clear Hacc. destruct (accepts _ _); [|done].
  rewrite !lookup_insert_eq.
  rewrite !(lookup_insert_ne _ "item_cols" "id_col") by done.
  unfold Data_DataFrame__init__. cbn [from_option id kw_truthy].
  rewrite bool_decide_true by done.
  rewrite (bool_decide_true ([s] ≠ [])) by done. done.
Qed.

Lemma load_data_item_cols_string_witness :
  load_data (PyDataFrame news) (<["item_cols" := KStr "title"]> ∅)
  = load_data (PyDataFrame news) (<["item_cols" := KStrs ["title"]]> ∅).
Proof. apply load_data_item_cols_string. discriminate. Defined.

Lemma select_known df cells cols :
  (∀ c, c ∈ cols → c ∈ columns df) →
  ∃ r, select df cells cols = Ok r ∧ r.*1 = cols.
Proof.
  induction cols as [|c cols IH]; intros Hcols.
  - by exists [].
  - destruct (column_pos_Some c df) as (j & Hpos & _); [apply Hcols; by left|].
    destruct IH as (r & Hr & Hlabels).
    { intros c' Hc'. apply Hcols. by right. }
    cbn [select]. rewrite Hpos, Hr. cbn.
    eexists. split; [done|]. cbn. by rewrite Hlabels.
Qed.

Lemma select_rows_known df rs cols :
  (∀ c, c ∈ cols → c ∈ columns df) →
  ∃ r, select_rows df rs cols = Ok r ∧
       length r = length rs ∧
       Forall (λ row, row.*1 = cols) r.
Proof.
  intros Hcols. induction rs as [|cells rs IH].
  - by exists [].
  - destruct (select_known df cells cols Hcols) as (x & Hx & Hlabels).
    destruct IH as (xs & Hxs & Hlen & Hall).
    cbn [select_rows]. rewrite Hx, Hxs. cbn.
    eexists. split; [done|]. split; [cbn; by rewrite Hlen|by constructor].
Qed.

Lemma load_data_frame_ids df (kwargs : gmap string KwVal) df' cols ids :
  load_data (PyDataFrame df) kwargs = Ok (Some (Data_DataFrame df' cols ids)) →
  ids = index df'.
Proof.
  unfold load_data. rewrite registry_order.
  cbn [load_data_from kind isinstance construct].
  destruct (accepts _ kwargs); [|done].
  unfold Data_DataFrame__init__.
  destruct (if kw_truthy _ then _ else _) as [sd|]; [|done]. cbn.
  destruct (if negb _ then _ else _) as [cs|]; [|done]. cbn.
  by intros [= <- <- <-].
Qed.

(** X6.  For a tabular adapter that [load_data] has built and whose
    [item_cols] are columns of its frame, the lookup of an id succeeds
    exactly for the ids of the adapter: for an id it has, it yields a row
    for each row of the frame with that label, each carrying the
    [item_cols] in their order; for any other id it raises
    [KeyError]. *)
Theorem getitem_known_ids df (kwargs : gmap string KwVal) df' cols ids id :
  load_data (PyDataFrame df) kwargs = Ok (Some (Data_DataFrame df' cols ids)) →
  (∀ c, c ∈ cols → c ∈ columns df') →
  (id ∈ ids →
   ∃ r, __getitem__ (Data_DataFrame df' cols ids) id = Ok r ∧
        r ≠ [] ∧
        length r = length (filter (λ row, row.1 = id) (rows df')) ∧
        Forall (λ row, row.*1 = cols) r) ∧
  (id ∉ ids → __getitem__ (Data_DataFrame df' cols ids) id = Raise KeyError).
Proof.
  intros Hload Hcols. apply load_data_frame_ids in Hload as ->.
  split.
  - intros Hid. cbn [__getitem__]. unfold loc.
    destruct (filter (λ row, row.1 = id) (rows df')) as [|row rest] eqn:Hf.
    + exfalso. unfold index in Hid.
      apply list_elem_of_fmap in Hid as (row & -> & Hrow).
      assert (Hin : row ∈ filter (λ row0, row0.1 = row.1) (rows df'))
        by (by apply list_elem_of_filter).
      rewrite Hf in Hin. by apply not_elem_of_nil in Hin.
    + destruct (select_rows_known df' ((row :: rest).*2) cols Hcols)
        as (r & Hr & Hlen & Hall).
      exists r. rewrite length_fmap in Hlen.
      split_and!; [done| |done|done].
      intros ->. discriminate Hlen.
  - intros Hid. by apply loc_absent.
Qed.

Lemma getitem_known_ids_witness :
  let d := Data_DataFrame
             {| columns := ["title"];
                rows := [(SInt 17, [SStr "a"]); (SInt 42, [SStr "b"])] |}
             ["title"] [SInt 17; SInt 42] in
  (SInt 17 ∈ [SInt 17; SInt 42] →
   ∃ r, __getitem__ d (SInt 17) = Ok r ∧
        r ≠ [] ∧
        length r = length (filter (λ row : Scalar * list Scalar, row.1 = SInt 17)
                             [(SInt 17, [SStr "a"]); (SInt 42, [SStr "b"])]) ∧
        Forall (λ row, row.*1 = ["title"]) r) ∧
  (SInt 17 ∉ [SInt 17; SInt 42] → __getitem__ d (SInt 17) = Raise KeyError).
Proof.
  apply (getitem_known_ids news
           {["id_col" := KStr "news_id"; "item_cols" := KStrs ["title"]]}).
  - vm_compute. reflexivity.
  - intros c Hc. exact Hc.
Defined.

(** ** Construction of an annotator *)

Lemma annotations_setter_lookup tasks (self0 : gmap string PyObj) key :
  key ≠ "_annotations" → annotations_setter tasks self0 !! key = self0 !! key.
Proof.
  intros Hkey. unfold annotations_setter.
  destruct tasks; by rewrite lookup_insert_ne.
Qed.

Lemma init_raw tasks raw user name save_data (kwargs : gmap string KwVal) :
  __init__ tasks (RawInput raw) user name save_data kwargs
  = (d ← load_data raw kwargs;
     Ok (<["save_data" := OBool save_data]>
           (<["_data" := from_option OData ONone d]>
              (annotations_setter tasks
                 (<["name" := OStr name]>
                    (<["user" := of_user user]>
                       (<["kwargs" := ODict kwargs]> ∅))))))).
Proof.
  unfold __init__, data_setter, attr.
  rewrite annotations_setter_lookup by done.
  rewrite !lookup_insert_ne, lookup_insert_eq by done. cbn -[load_data].
  by destruct (load_data raw kwargs).
Qed.

Section ConstructionFacts.

Context {Human : Type}.
Variable present :
  Human → Obj → Kwargs → Id → Fields → Human * option (list Scalar).

(** X7.  Raw data that is neither a sequence, nor a mapping, nor a frame
    (a series, a number, [None] wrapped in another type) is taken without
    complaint: the annotator is built, it has no data, and a call on it
    returns at once and presents nothing. *)
Theorem init_unsupported_data tasks raw user name save_data
    (kwargs : gmap string KwVal) :
  isinstance raw Sequence = false →
  isinstance raw Mapping = false →
  isinstance raw pd_DataFrame = false →
  ∃ self0,
    __init__ tasks (RawInput raw) user name save_data kwargs = Ok self0 ∧
    self0 !! "_data" = Some ONone ∧
    ∀ (w : World) ids u redo kw,
      self w = self0 →
      (__call__ present ids u redo kw w).1 = Ok () ∧
      presented (__call__ present ids u redo kw w).2 = presented w.
Proof.
  intros Hseq Hmap Hdf. rewrite init_raw.
  assert (Hload : load_data raw kwargs = Ok None).
  { unfold load_data. rewrite registry_order. cbn [load_data_from kind].
    by rewrite Hseq, Hmap, Hdf. }
  rewrite Hload. cbn. eexists. split; [reflexivity|].
  assert (Hdata : ∀ o : gmap string PyObj,
            <["save_data" := OBool save_data]> (<["_data" := ONone]> o) !! "_data"
            = Some ONone).
  { intros o. by rewrite lookup_insert_ne, lookup_insert_eq. }
  split; [apply Hdata|].
  intros w ids u redo kw Hw.
  rewrite call_without_data; [done|]. rewrite Hw. apply Hdata.
Qed.

End ConstructionFacts.

Lemma init_unsupported_data_witness :
  ∃ self0,
    __init__ (TasksList [flag]) (RawInput (PySeries [SInt 0] [SStr "a"])) None
      "HUMANNOTATOR" false {["text_display" := KBool true]} = Ok self0 ∧
    self0 !! "_data" = Some ONone ∧
    ∀ (w : World) ids u redo kw,
      self w = self0 →
      (__call__ stops ids u redo kw w).1 = Ok () ∧
      presented (__call__ stops ids u redo kw w).2 = presented w.
Proof.
  apply (init_unsupported_data stops (TasksList [flag])
           (PySeries [SInt 0] [SStr "a"])); reflexivity.
Defined.

(** X8.  The keyword arguments of the constructor go to [load_data] with
    the raw data: a list, a tuple, a string or a dictionary as data
    together with any keyword argument makes the construction fail with
    [TypeError], whereas an adapter object as data is stored as it is,
    with the keyword arguments beside it. *)
Theorem init_keywords tasks raw d user name save_data
    (kwargs : gmap string KwVal) :
  kwargs ≠ ∅ →
  isinstance raw Sequence = true ∨ isinstance raw Mapping = true →
  __init__ tasks (RawInput raw) user name save_data kwargs = Raise TypeError ∧
  ∃ self0,
    __init__ tasks (AdapterData d) user name save_data kwargs = Ok self0 ∧
    self0 !! "_data" = Some (OData d) ∧
    self0 !! "kwargs" = Some (ODict kwargs).
Proof.
  intros Hne Hshape.
  assert (Hacc : accepts [] kwargs = false).
  { destruct (accepts [] kwargs) eqn:Hacc; [|done].
    by apply accepts_nothing in Hacc. }
  split.
  - rewrite init_raw.
    assert (Hload : load_data raw kwargs = Raise TypeError).
    { unfold load_data. rewrite registry_order. cbn [load_data_from kind].
      destruct (isinstance raw Sequence) eqn:Hseq.
      - cbn [construct]. by rewrite Hacc.
      - destruct Hshape as [|Hmap]; [done|]. rewrite Hmap.
        cbn [construct]. by rewrite Hacc. }
    by rewrite Hload.
  - unfold __init__, data_setter. cbn. eexists. split; [reflexivity|].
    split.
    + by rewrite lookup_insert_ne, lookup_insert_eq.
    + rewrite !lookup_insert_ne by done.
      rewrite annotations_setter_lookup by done.
      rewrite !lookup_insert_ne by done. apply lookup_insert_eq.
Qed.

Lemma init_keywords_witness :
  __init__ (TasksList [flag]) (RawInput abc) None "HUMANNOTATOR" false
    {["text_display" := KBool true]} = Raise TypeError ∧
  ∃ self0,
    __init__ (TasksList [flag]) (AdapterData adapter_abc) None "HUMANNOTATOR"
      false {["text_display" := KBool true]} = Ok self0 ∧
    self0 !! "_data" = Some (OData adapter_abc) ∧
    self0 !! "kwargs" = Some (ODict {["text_display" := KBool true]}).
Proof.
  apply (init_keywords (TasksList [flag]) abc adapter_abc).
  - intros Heq.
    apply (f_equal (λ m : gmap string KwVal, m !! "text_display")) in Heq.
    vm_compute in Heq. discriminate Heq.
  - by left.
Defined.

(** ** Pickling *)

(** X9.  [__setstate__] always leaves the object with an attribute
    [_data]: the one of the state when it has one, and [None] otherwise,
    even on an object that had data; every other attribute of the state
    is taken over, and the attributes that the state does not name stay
    as they were. *)
Theorem setstate_data (self0 state : gmap string PyObj) :
  is_Some (__setstate__ self0 state !! "_data") ∧
  (state !! "_data" = None → __setstate__ self0 state !! "_data" = Some ONone) ∧
  (∀ key v, state !! key = Some v → __setstate__ self0 state !! key = Some v) ∧
  (∀ key, key ≠ "_data" → state !! key = None →
          __setstate__ self0 state !! key = self0 !! key).
Proof.
  unfold __setstate__.
  destruct (state !! "_data") as [v|] eqn:Hdata.
  - rewrite bool_decide_true by (apply elem_of_dom; eauto).
    split_and!.
    + exists v. by apply lookup_union_Some_l.
    + done.
    + intros key v' Hkey. by apply lookup_union_Some_l.
    + intros key _ Hkey. by apply lookup_union_r.
  - rewrite bool_decide_false by (by rewrite not_elem_of_dom).
    assert (Hnone : (<["_data" := ONone]> state ∪ self0) !! "_data" = Some ONone).
    { apply lookup_union_Some_l. apply lookup_insert_eq. }
    split_and!.
    + by exists ONone.
    + done.
    + intros key v' Hkey. apply lookup_union_Some_l.
      rewrite lookup_insert_ne; [done|]. intros <-. congruence.
    + intros key Hne Hkey. apply lookup_union_r.
      by rewrite lookup_insert_ne.
Qed.

Section PickleExact.

Context {Blob : Type}.
Variable dumps : gmap string PyObj → Blob.
Variable loads : Blob → option (gmap string PyObj).
Hypothesis loads_dumps :
  ∀ state, state_pickles state → loads (dumps state) = Some state.

(** X10.  What is saved is the attributes of the annotator, without
    [_data] unless [save_data] is truthy.  When none of them is or holds
    a view of a dictionary, saving and loading gives back the annotator
    attribute for attribute: the very same object when [save_data] is
    truthy, and the object with [_data] set to [None] when it is not.
    When one of them does, [save] raises [TypeError]. *)
Theorem load_save_exact (self0 : gmap string PyObj) v filename
    (fs : gmap string Blob) :
  self0 !! "save_data" = Some v →
  is_Some (self0 !! "_data") →
  let kept := if py_truthy v then self0 else delete "_data" self0 in
  (state_pickles kept →
   ∃ fs',
     save dumps self0 filename fs = Ok fs' ∧
     load loads filename fs'
     = Ok (if py_truthy v then self0 else <["_data" := ONone]> self0)) ∧
  (¬ state_pickles kept → save dumps self0 filename fs = Raise TypeError).
Proof.
  intros Hv [d Hd] kept.
  assert (Hstate : __getstate__ self0 = Ok kept).
  { unfold __getstate__, attr, kept. rewrite Hv. cbn.
    destruct (py_truthy v); cbn; [done|]. by rewrite Hd. }
  unfold save, pickle_dump. rewrite Hstate. cbn [mbind Result_bind].
  split.
  - intros Hp. rewrite bool_decide_true by done.
    eexists. split; [reflexivity|].
    unfold load, pickle_load. rewrite lookup_insert_eq, loads_dumps by done.
    unfold __setstate__, kept. destruct (py_truthy v).
    + rewrite bool_decide_true by (apply elem_of_dom; eauto).
      by rewrite (right_id_L ∅ (∪)).
    + rewrite bool_decide_false
        by (rewrite not_elem_of_dom; apply lookup_delete_eq).
      by rewrite (right_id_L ∅ (∪)), insert_delete_eq.
  - intros Hp. by rewrite bool_decide_false.
Qed.

End PickleExact.

Lemma load_save_exact_witness :
  ∃ fs',
    save plain_dumps session_abc_annotated "annotator.pkl" ∅ = Ok fs' ∧
    load plain_loads "annotator.pkl" fs'
    = Ok (if py_truthy (OBool false) then session_abc_annotated
          else <["_data" := ONone]> session_abc_annotated).
Proof.
  refine (proj1 (load_save_exact plain_dumps plain_loads (λ state _, eq_refl)
                   session_abc_annotated (OBool false) "annotator.pkl" ∅ _ _) _).
  - vm_compute. reflexivity.
  - eexists. vm_compute. reflexivity.
  - apply (bool_decide_unpack _). vm_compute. exact I.
Defined.

(** ** The cursor of a run *)

Section CursorFacts.

Context {Human : Type}.
Variable present :
  Human → Obj → Kwargs → Id → Fields → Human * option (list Scalar).

Implicit Types (w : @World (Human * list (Obj * Kwargs * Id))).
Implicit Types (v : @World Human).

(** One call of the interface, spelled out. *)
Lemma Interface_call_unfold {H}
    (p : H → Obj → Kwargs → Id → Fields → H * option (list Scalar))
    it id (u : @World H) :
  Interface__call__ p it id u =
    match fields (interface_data it) id with
    | Raise e =>
        (Raise e,
         {| self := self u; stdout := stdout u; human := human u;
            presented := presented u ++ [id] |})
    | Ok fs =>
        match (p (human u) (self u) (interface_kwargs it) id fs).2 with
        | Some answers =>
            match commit id answers (self u) with
            | Ok o =>
                (Ok it,
                 {| self := o; stdout := stdout u;
                    human := (p (human u) (self u) (interface_kwargs it) id fs).1;
                    presented := presented u ++ [id] |})
            | Raise e =>
                (Raise e,
                 {| self := self u; stdout := stdout u;
                    human := (p (human u) (self u) (interface_kwargs it) id fs).1;
                    presented := presented u ++ [id] |})
            end
        | None =>
            (Ok {| active := false; interface_data := interface_data it;
                   interface_kwargs := interface_kwargs it |},
             {| self := self u; stdout := stdout u;
                human := (p (human u) (self u) (interface_kwargs it) id fs).1;
                presented := presented u ++ [id] |})
        end
    end.
Proof.
  unfold Interface__call__. rewrite run_bind. cbn [receive].
  rewrite run_bind. unfold lift at 1.
  destruct (fields _ id) as [fs|e]; [|done].
  rewrite run_bind. unfold ask at 1. cbn [self human stdout presented].
  destruct (p _ _ _ _ _) as [h [answers|]]; [|done].
  rewrite run_bind. unfold update at 1. cbn [self human stdout presented snd fst].
  by destruct (commit _ _ _).
Qed.

(** The record changes nothing of a run. *)
Lemma Interface_call_erase it id w :
  (Interface__call__ (recording present) it id w).1
  = (Interface__call__ present it id (erase w)).1 ∧
  erase (Interface__call__ (recording present) it id w).2
  = (Interface__call__ present it id (erase w)).2.
Proof.
  rewrite !Interface_call_unfold.
  destruct (fields _ id) as [fs|e]; [|done].
  unfold recording. cbn [self human stdout presented erase].
  destruct (present _ _ _ _ _) as [h [answers|]]; cbn [fst snd]; [|done].
  by destruct (commit _ _ _).
Qed.

Lemma annotate_erase it i ids w :
  (annotate (recording present) it i ids w).1
  = (annotate present it i ids (erase w)).1 ∧
  erase (annotate (recording present) it i ids w).2
  = (annotate present it i ids (erase w)).2.
Proof.
  revert it i w. induction ids as [|id ids IH]; intros it i w; [done|].
  cbn [annotate]. rewrite !run_bind. cbn [setattr]. rewrite !run_bind.
  set (w1 := {| self := <["i" := _]> (self w) |}).
  destruct (Interface_call_erase it id w1) as [Hr Hw].
  change ({| self := <["i" := OInt (Z.of_nat i)]> (self (erase w));
             stdout := stdout (erase w); human := human (erase w);
             presented := presented (erase w) |}) with (erase w1).
  destruct (Interface__call__ (recording present) it id w1) as [r1 w2].
  destruct (Interface__call__ present it id (erase w1)) as [r1' w2'].
  cbn in Hr, Hw. subst r1' w2'.
  destruct r1 as [it'|e]; [|done].
  destruct (negb (active it')); [done|]. apply IH.
Qed.

Lemma Interface_call_recorded it id w :
  (human (Interface__call__ (recording present) it id w).2).2 = (human w).2 ∨
  (human (Interface__call__ (recording present) it id w).2).2
  = (human w).2 ++ [(self w, interface_kwargs it, id)].
Proof.
  rewrite Interface_call_unfold.
  destruct (fields _ id) as [fs|e]; [|by left].
  unfold recording.
  destruct (present _ _ _ _ _) as [h [answers|]]; cbn [fst snd]; [|by right].
  destruct (commit _ _ _); by right.
Qed.

Lemma Interface_call_same {H}
    (p : H → Obj → Kwargs → Id → Fields → H * option (list Scalar))
    it id (u : @World H) it' :
  (Interface__call__ p it id u).1 = Ok it' →
  interface_kwargs it' = interface_kwargs it ∧
  interface_data it' = interface_data it.
Proof.
  rewrite Interface_call_unfold.
  destruct (fields _ id) as [fs|e]; [|done].
  destruct (p _ _ _ _ _).2 as [answers|].
  - destruct (commit _ _ _); [|done]. cbn. by intros [= <-].
  - cbn. by intros [= <-].
Qed.

Lemma annotate_recorded it i ids w pre obj :
  self w !! "ids" = Some obj →
  length pre = i →
  ∃ new,
    (human (annotate (recording present) it i ids w).2).2 = (human w).2 ++ new ∧
    Forall (λ e, cursor_at obj (pre ++ ids) e ∧ e.1.2 = interface_kwargs it) new.
Proof.
  revert it i w pre. induction ids as [|id ids IH]; intros it i w pre Hids Hlen.
  - exists []. split; [by rewrite app_nil_r|constructor].
  - cbn [annotate]. rewrite run_bind. cbn [setattr]. rewrite run_bind.
    set (w1 := {| self := <["i" := _]> (self w) |}).
    assert (Hentry : cursor_at obj (pre ++ id :: ids)
                       (self w1, interface_kwargs it, id)).
    { exists i. cbn. split_and!.
      - apply lookup_insert_eq.
      - by rewrite lookup_insert_ne.
      - rewrite lookup_app_r by lia. by rewrite Hlen, Nat.sub_diag. }
    pose proof (Interface_call_recorded it id w1) as Hlog.
    pose proof (Interface_call_same (recording present) it id w1) as Hsame.
    pose proof (Interface_call_frame (recording present) it id w1 "ids") as Hframe.
    destruct (Interface__call__ (recording present) it id w1) as [r1 w2].
    cbn in Hlog, Hsame, Hframe.
    assert (Hone : ∃ new, (human w2).2 = (human w).2 ++ new ∧
              Forall (λ e, cursor_at obj (pre ++ id :: ids) e ∧
                           e.1.2 = interface_kwargs it) new).
    { destruct Hlog as [->| ->].
      - exists []. split; [by rewrite app_nil_r|constructor].
      - eexists. split; [reflexivity|]. by repeat constructor. }
    destruct r1 as [it'|e]; [|exact Hone].
    destruct (negb (active it')); [exact Hone|].
    destruct (Hsame it' eq_refl) as [Hkw _].
    destruct (IH it' (S i) w2 (pre ++ [id])) as (new2 & Hnew2 & Hall2).
    { rewrite Hframe by done. cbn. by rewrite lookup_insert_ne. }
    { rewrite length_app. cbn. lia. }
    destruct Hone as (new1 & Hnew1 & Hall1).
    exists (new1 ++ new2). split.
    + by rewrite Hnew2, Hnew1, <- app_assoc.
    + apply Forall_app. split; [done|].
      rewrite <- app_assoc in Hall2. cbn in Hall2.
      by rewrite Hkw in Hall2.
Qed.

(** What every presentation of a call on a session with data sees. *)
Lemma call_recorded ids user redo kwargs w d a k :
  ready (self w) d a k →
  ∃ new,
    (human (__call__ (recording present) ids user redo kwargs w).2).2
    = (human w).2 ++ new ∧
    Forall (λ e, cursor_at (stored_ids redo a ids d)
                   (work_list redo a (requested ids d)) e ∧
                 e.1.2 = k ∪ kwargs) new.
Proof.
  intros Hready.
  rewrite (call_with_data _ _ _ _ _ _ d a k) by done.
  set (it := {| active := true |}).
  set (w2 := {| self := _ |}).
  destruct (annotate_recorded it 0 (work_list redo a (requested ids d)) w2 []
              (stored_ids redo a ids d))
    as (new & Hnew & Hall); [|done|].
  { cbn. apply lookup_insert_eq. }
  exists new. split; [exact Hnew|exact Hall].
Qed.

(** X11.  Whenever a call shows an item, the cursor of the annotator
    points at it: [self.ids] is the object that the call stored, which
    yields the work list of the call, and the id at the position
    [self.i] of the work list is the id that is shown.  (The renderer
    keeps a record of what it sees; the record changes nothing of the
    run.) *)
Theorem presentation_sees_cursor ids user redo kwargs w d a k :
  ready (self w) d a k →
  let r := __call__ (recording present) ids user redo kwargs w in
  let r0 := __call__ present ids user redo kwargs (erase w) in
  r.1 = r0.1 ∧ erase r.2 = r0.2 ∧
  ∃ new,
    (human r.2).2 = (human w).2 ++ new ∧
    ∀ annotator kw id,
      (annotator, kw, id) ∈ new →
      ∃ i : nat,
        annotator !! "i" = Some (OInt (Z.of_nat i)) ∧
        annotator !! "ids" = Some (stored_ids redo a ids d) ∧
        iter_ids (stored_ids redo a ids d)
        = Ok (work_list redo a (requested ids d)) ∧
        work_list redo a (requested ids d) !! i = Some id.
Proof.
  intros Hready r r0. subst r r0. split_and!.
  - rewrite (call_with_data _ _ _ _ _ _ d a k) by done.
    rewrite (call_with_data _ _ _ _ _ (erase w) d a k) by done.
    apply annotate_erase.
  - rewrite (call_with_data _ _ _ _ _ _ d a k) by done.
    rewrite (call_with_data _ _ _ _ _ (erase w) d a k) by done.
    apply annotate_erase.
  - destruct (call_recorded ids user redo kwargs w d a k Hready)
      as (new & Hnew & Hall).
    exists new. split; [exact Hnew|].
    intros annotator kw id Hin.
    rewrite Forall_forall in Hall.
    destruct (Hall _ Hin) as [(i & Hi & Hids & Hid) _].
    exists i. split_and!; [done|done|apply iter_stored_ids|done].
Qed.

(** X12.  The keyword arguments of the constructor win over those of
    the call: every presentation gets the union of the two in which a
    keyword that both name has the value that the constructor was
    given. *)
Theorem constructor_keywords_win ids user redo kwargs w d a k :
  ready (self w) d a k →
  ∃ new,
    (human (__call__ (recording present) ids user redo kwargs w).2).2
    = (human w).2 ++ new ∧
    ∀ annotator kw id,
      (annotator, kw, id) ∈ new →
      ∀ key,
        (∀ val, k !! key = Some val → kw !! key = Some val) ∧
        (k !! key = None → kw !! key = kwargs !! key).
Proof.
  intros Hready.
  destruct (call_recorded ids user redo kwargs w d a k Hready)
    as (new & Hnew & Hall).
  exists new. split; [exact Hnew|].
  intros annotator kw id Hin key.
  rewrite Forall_forall in Hall.
  destruct (Hall _ Hin) as [_ Hkw]. cbn in Hkw. subst kw. split.
  - intros val Hval. by apply lookup_union_Some_l.
  - intros Hnone. by apply lookup_union_r.
Qed.

(** X13.  At every presentation the counter of the display is within
    its bounds: [index_counter] hands the [Counter] a [count] of at
    least 1 and at most the [total], and the [total] is the length of
    the work list. *)
Theorem index_counter_in_bounds ids user redo kwargs w d a k :
  ready (self w) d a k →
  ∃ new,
    (human (__call__ (recording present) ids user redo kwargs w).2).2
    = (human w).2 ++ new ∧
    ∀ annotator kw id,
      (annotator, kw, id) ∈ new →
      ∃ count total,
        index_counter annotator = Ok (count, total) ∧
        total = length (work_list redo a (requested ids d)) ∧
        (1 ≤ count ≤ Z.of_nat total)%Z.
Proof.
  intros Hready.
  destruct (call_recorded ids user redo kwargs w d a k Hready)
    as (new & Hnew & Hall).
  exists new. split; [exact Hnew|].
  intros annotator kw id Hin.
  rewrite Forall_forall in Hall.
  destruct (Hall _ Hin) as [(i & Hi & Hids & Hid) _]. cbn in Hi, Hids, Hid.
  apply lookup_lt_Some in Hid.
  exists (Z.of_nat i + 1)%Z, (length (work_list redo a (requested ids d))).
  split_and!; [|done|lia|lia].
  unfold index_counter, attr. rewrite Hi, Hids. cbn [mbind Result_bind].
  pose proof (iter_stored_ids redo a ids d) as Hiter.
  destruct (stored_ids redo a ids d); try done;
    cbn in Hiter; by injection Hiter as <-.
Qed.

End CursorFacts.

Lemma presentation_sees_cursor_witness :
  let w := start session_abc_annotated ((), []) in
  let r := __call__ (recording says_yes) None None false ∅ w in
  let r0 := __call__ says_yes None None false ∅ (erase w) in
  r.1 = r0.1 ∧ erase r.2 = r0.2 ∧
  ∃ new,
    (human r.2).2 = (human w).2 ++ new ∧
    ∀ annotator kw id,
      (annotator, kw, id) ∈ new →
      ∃ i : nat,
        annotator !! "i" = Some (OInt (Z.of_nat i)) ∧
        annotator !! "ids" = Some (stored_ids false ledger_abc None adapter_abc) ∧
        iter_ids (stored_ids false ledger_abc None adapter_abc)
        = Ok (work_list false ledger_abc (requested None adapter_abc)) ∧
        work_list false ledger_abc (requested None adapter_abc) !! i = Some id.
Proof.
  exact (presentation_sees_cursor says_yes None None false ∅
           (start session_abc_annotated ((), [])) adapter_abc ledger_abc ∅
           session_abc_annotated_ready).
Defined.

Lemma session_abc_text_ready :
  ready session_abc_text adapter_abc ledger_empty {["text_display" := KBool true]}.
Proof. split; vm_compute; reflexivity. Qed.

Lemma constructor_keywords_win_witness :
  let w := start session_abc_text ((), []) in
  let k : gmap string KwVal := {["text_display" := KBool true]} in
  let kwargs : gmap string KwVal :=
    {["text_display" := KBool false; "escape" := KBool true]} in
  ∃ new,
    (human (__call__ (recording says_yes) None None false kwargs w).2).2
    = (human w).2 ++ new ∧
    ∀ annotator kw id,
      (annotator, kw, id) ∈ new →
      ∀ key,
        (∀ val, k !! key = Some val → kw !! key = Some val) ∧
        (k !! key = None → kw !! key = kwargs !! key).
Proof.
  exact (constructor_keywords_win says_yes None None false
           {["text_display" := KBool false; "escape" := KBool true]}
           (start session_abc_text ((), [])) adapter_abc ledger_empty
           {["text_display" := KBool true]} session_abc_text_ready).
Defined.

(** The annotator was built with [text_display=True] and is called with
    [text_display=False] and [escape=True]: each of the three
    presentations gets [text_display=True], from the constructor, and
    [escape=True], from the call. *)
Example constructor_keyword_is_kept :
  (λ e : gmap string PyObj * gmap string KwVal * Scalar,
     (e.1.2 !! "text_display", e.1.2 !! "escape"))
    <$> (human (__call__ (recording says_yes) None None false
                  {["text_display" := KBool false; "escape" := KBool true]}
                  (start session_abc_text ((), []))).2).2
  = [(Some (KBool true), Some (KBool true));
     (Some (KBool true), Some (KBool true));
     (Some (KBool true), Some (KBool true))].
Proof. vm_compute. reflexivity. Qed.

Lemma index_counter_in_bounds_witness :
  let w := start session_abc ((), []) in
  ∃ new,
    (human (__call__ (recording says_yes) None None false ∅ w).2).2
    = (human w).2 ++ new ∧
    ∀ annotator kw id,
      (annotator, kw, id) ∈ new →
      ∃ count total,
        index_counter annotator = Ok (count, total) ∧
        total = length (work_list false ledger_empty (requested None adapter_abc)) ∧
        (1 ≤ count ≤ Z.of_nat total)%Z.
Proof.
  exact (index_counter_in_bounds says_yes None None false ∅
           (start session_abc ((), [])) adapter_abc ledger_empty ∅
           session_abc_ready).
Defined.

(** The record of the run over ["a", "b", "c"]: three presentations, at
    the positions 0, 1 and 2. *)
Example recorded_positions :
  (λ e : gmap string PyObj * gmap string KwVal * Scalar, (e.1.1 !! "i", e.2))
    <$> (human (__call__ (recording says_yes) None None false ∅
                  (start session_abc ((), []))).2).2
  = [(Some (OInt 0), SInt 0); (Some (OInt 1), SInt 1); (Some (OInt 2), SInt 2)].
Proof. vm_compute. reflexivity. Qed.

Section PositionFacts.

Context {Human : Type}.
Variable present :
  Human → Obj → Kwargs → Id → Fields → Human * option (list Scalar).

Lemma annotate_position it i ids (w : @World Human) :
  (ids = [] →
   presented (annotate present it i ids w).2 = presented w ∧
   self (annotate present it i ids w).2 !! "i" = self w !! "i") ∧
  (ids ≠ [] →
   ∃ n : nat, (1 ≤ n ≤ length ids)%nat ∧
        presented (annotate present it i ids w).2 = presented w ++ take n ids ∧
        self (annotate present it i ids w).2 !! "i"
        = Some (OInt (Z.of_nat (i + n - 1)))).
Proof.
  revert it i w. induction ids as [|id ids IH]; intros it i w.
  - split; [|done]. intros _. by cbn.
  - split; [done|]. intros _.
    cbn [annotate]. rewrite run_bind. cbn [setattr]. rewrite run_bind.
    set (w1 := {| self := <["i" := _]> (self w) |}).
    pose proof (Interface_call_presented present it id w1) as Hp.
    pose proof (Interface_call_frame present it id w1 "i") as Hf.
    destruct (Interface__call__ present it id w1) as [r1 w2].
    cbn in Hp, Hf. rewrite lookup_insert_eq in Hf.
    assert (Hone : ∃ n : nat, (1 ≤ n ≤ length (id :: ids))%nat ∧
              presented w2 = presented w ++ take n (id :: ids) ∧
              self w2 !! "i" = Some (OInt (Z.of_nat (i + n - 1)))).
    { exists 1. cbn. split_and!; [lia|lia|done|].
      rewrite Hf by done. do 3 f_equal. lia. }
    destruct r1 as [it'|e]; [|exact Hone].
    destruct (negb (active it')); [exact Hone|].
    destruct (IH it' (S i) w2) as [Hnil Hcons].
    destruct ids as [|id' ids'].
    + destruct Hnil as [Hpres Hi]; [done|].
      destruct Hone as (n & Hn & Hpn & Hin).
      exists n. by rewrite Hpres, Hi.
    + destruct Hcons as (n & Hn & Hpn & Hin); [done|].
      exists (S n). cbn [length] in *. split_and!; [lia|lia| |].
      * rewrite Hpn, Hp. cbn. by rewrite <- app_assoc.
      * rewrite Hin. do 3 f_equal. lia.
Qed.

(** X14.  After a call on a session with data, [self.i] is the position
    of the id that was presented last: with n ids presented, n at least
    1, it is n-1; a call with an empty work list presents nothing and
    leaves [self.i] as it was, unset on a new annotator. *)
Theorem position_after_call ids user redo kwargs (w : @World Human) d a k :
  ready (self w) d a k →
  let wl := work_list redo a (requested ids d) in
  let w' := (__call__ present ids user redo kwargs w).2 in
  (wl = [] → presented w' = presented w ∧ self w' !! "i" = self w !! "i") ∧
  (wl ≠ [] →
   ∃ n : nat, (1 ≤ n ≤ length wl)%nat ∧
        presented w' = presented w ++ take n wl ∧
        self w' !! "i" = Some (OInt (Z.of_nat n - 1)%Z)).
Proof.
  intros Hready wl w'. subst w'.
  rewrite (call_with_data _ _ _ _ _ _ d a k) by done. fold wl.
  set (it := {| active := true |}).
  set (w2 := {| self := _ |}).
  destruct (annotate_position it 0 wl w2) as [Hnil Hcons].
  split.
  - intros Hwl. destruct (Hnil Hwl) as [Hp Hi]. split; [exact Hp|].
    rewrite Hi. cbn. rewrite lookup_insert_ne by done.
    by apply after_user_lookup.
  - intros Hwl. destruct (Hcons Hwl) as (n & Hn & Hp & Hi).
    exists n. split_and!; [lia|lia|exact Hp|].
    rewrite Hi. do 2 f_equal. lia.
Qed.

End PositionFacts.

Lemma position_after_call_witness :
  let w := start session_abc () in
  let wl := work_list true ledger_empty (requested (Some [SInt 2; SInt 0]) adapter_abc) in
  let w' := (__call__ stops (Some [SInt 2; SInt 0]) None true ∅ w).2 in
  (wl = [] → presented w' = presented w ∧ self w' !! "i" = self w !! "i") ∧
  (wl ≠ [] →
   ∃ n : nat, (1 ≤ n ≤ length wl)%nat ∧
        presented w' = presented w ++ take n wl ∧
        self w' !! "i" = Some (OInt (Z.of_nat n - 1)%Z)).
Proof.
  exact (position_after_call stops (Some [SInt 2; SInt 0]) None true ∅
           (start session_abc ()) adapter_abc ledger_empty ∅ session_abc_ready).
Defined.

(** ** The merged view *)

Section ViewFacts.

Context {Human Table : Type}.
Variable merge : GroupedFrame → GroupedFrame → Result Table.

Lemma merged_with_data (w : @World Human) d a k :
  ready (self w) d a k →
  merged merge w
  = (c ← data_copy d;
     df ← columns_of c;
     t ← merge (grouped "DATA" df) (grouped "ANNOTATIONS" (Annotations.data a));
     Ok (Some t), w).
Proof.
  intros [Hd Ha Hk]. unfold merged.
  rewrite run_bind, (run_data_some w d Hd).
  rewrite run_bind, (run_data_some w d Hd).
  unfold lift. rewrite run_bind.
  destruct (data_copy d) as [c|e]; [|done]. cbn [mbind Result_bind].
  rewrite run_bind. unfold annotated, attr. rewrite Ha. cbn [mbind Result_bind].
  rewrite run_bind.
  destruct (columns_of c) as [df|e]; [|done]. cbn [mbind Result_bind].
  rewrite run_bind.
  by destruct (merge _ _).
Qed.

(** X15.  [merged] works on tabular data only: for an annotator whose
    data [load_data] has built from a list, a tuple, a string or a
    dictionary it raises [AttributeError], and it leaves the annotator as
    it was and prints nothing. *)
Theorem merged_needs_a_frame raw (kwargs : gmap string KwVal)
    (w : @World Human) d a k :
  ready (self w) d a k →
  load_data raw kwargs = Ok (Some d) →
  isinstance raw pd_DataFrame = false →
  merged merge w = (Raise AttributeError, w).
Proof.
  intros Hready Hload Hraw.
  rewrite (merged_with_data w d a k Hready).
  unfold load_data in Hload. rewrite registry_order in Hload.
  cbn [load_data_from kind] in Hload. rewrite Hraw in Hload.
  destruct (isinstance raw Sequence) eqn:Hs.
  - cbn [construct] in Hload. destruct (accepts [] kwargs); [|done].
    unfold Data_List__init__ in Hload.
    destruct (py_len raw) as [n|]; [|done]. cbn in Hload.
    injection Hload as <-.
    by destruct raw as [l|l|m|df|df|ls vs|[]].
  - destruct (isinstance raw Mapping) eqn:Hm; [|done].
    cbn [construct] in Hload. destruct (accepts [] kwargs); [|done].
    destruct raw as [l|l|m|df|df|ls vs|s]; try done.
    cbn in Hload. by injection Hload as <-.
Qed.

(** X16.  For an annotator whose data [load_data] has built from a
    frame, [merged] hands to the merge of pandas the adapter's frame,
    whose index is the ids of the adapter, with its columns under
    [DATA], and the annotation table with its columns under
    [ANNOTATIONS]; it returns what the merge returns and leaves the
    annotator as it was.  The adapter's frame is the frame given when
    [id_col] is falsy. *)
Theorem merged_tabular df (kwargs : gmap string KwVal) (w : @World Human) d a k :
  ready (self w) d a k →
  load_data (PyDataFrame df) kwargs = Ok (Some d) →
  ∃ df',
    index df' = ids_of d ∧
    (kw_truthy (default KNone (kwargs !! "id_col")) = false → df' = df) ∧
    merged merge w
    = (t ← merge (grouped "DATA" df') (grouped "ANNOTATIONS" (Annotations.data a));
       Ok (Some t), w).
Proof.
  intros Hready Hload.
  rewrite (merged_with_data w d a k Hready).
  unfold load_data in Hload. rewrite registry_order in Hload.
  cbn [load_data_from kind isinstance construct] in Hload.
  destruct (accepts _ kwargs); [|done].
  unfold Data_DataFrame__init__ in Hload.
  destruct (kw_truthy (default KNone (kwargs !! "id_col"))) eqn:Hid.
  - destruct (default KNone (kwargs !! "id_col")) as [| | |col|cols];
      try done.
    destruct (set_index col df) as [sd|]; [|done]. cbn in Hload.
    destruct (if negb _ then _ else _) as [cs|]; [|done]. cbn in Hload.
    injection Hload as <-. exists sd.
    by split_and!.
  - cbn in Hload.
    destruct (if negb _ then _ else _) as [cs|]; [|done]. cbn in Hload.
    injection Hload as <-. exists df.
    by split_and!.
Qed.

End ViewFacts.

Lemma merged_needs_a_frame_witness :
  merged (λ l r, Ok (l, r)) (start session_abc ())
  = (Raise AttributeError, start session_abc ()).
Proof.
  apply (merged_needs_a_frame (λ l r, Ok (l, r)) abc ∅ (start session_abc ())
           adapter_abc ledger_empty ∅).
  - exact session_abc_ready.
  - vm_compute. reflexivity.
  - vm_compute. reflexivity.
Defined.

Lemma merged_tabular_witness :
  let a := Annotations.from_df earlier in
  ∃ df',
    index df' = ids_of adapter_news ∧
    (kw_truthy (default KNone ((∅ : gmap string KwVal) !! "id_col")) = false →
     df' = news) ∧
    merged (λ l r, Ok (l, r)) (start session_news ())
    = (t ← (λ l r, Ok (l, r)) (grouped "DATA" df')
             (grouped "ANNOTATIONS" (Annotations.data a));
       Ok (Some t), start session_news ()).
Proof.
  apply (merged_tabular (λ l r, Ok (l, r)) news ∅
           (start session_news ()) adapter_news (Annotations.from_df earlier) ∅).
  - split; vm_compute; reflexivity.
  - vm_compute. reflexivity.
Defined.

(** ** Loading the data again *)

Section ReloadFacts.

Context {Blob : Type}.
Variable dumps : gmap string PyObj → Blob.
Variable loads : Blob → option (gmap string PyObj).
Hypothesis loads_dumps :
  ∀ state, state_pickles state → loads (dumps state) = Some state.

(** X17.  An annotator that is saved without its data, and that but for
    its data holds no view of a dictionary, comes back with [_data] set
    to [None], and assigning the data to it again, as the adapter or as
    the raw data it was built from, gives back the annotator that was
    saved, attribute for attribute: the keyword arguments that the
    adapter is built with are saved with it. *)
Theorem data_reattached (self0 : gmap string PyObj) v d a k raw filename
    (fs : gmap string Blob) :
  ready self0 d a k →
  self0 !! "save_data" = Some v →
  py_truthy v = false →
  state_pickles (delete "_data" self0) →
  load_data raw k = Ok (Some d) →
  ∃ fs' self1,
    save dumps self0 filename fs = Ok fs' ∧
    load loads filename fs' = Ok self1 ∧
    self1 !! "_data" = Some ONone ∧
    data_setter (RawInput raw) self1 = Ok self0 ∧
    data_setter (AdapterData d) self1 = Ok self0.
Proof.
  intros [Hd Ha Hk] Hv Hfalsy Hpickles Hload.
  assert (Hback : <["_data" := OData d]> (<["_data" := ONone]> self0) = self0).
  { rewrite insert_insert_eq. by apply insert_id. }
  exists (<[filename := dumps (delete "_data" self0)]> fs),
         (<["_data" := ONone]> self0).
  split_and!.
  - unfold save, pickle_dump, __getstate__, attr.
    rewrite Hv. cbn. rewrite Hfalsy. cbn. rewrite Hd. cbn.
    by rewrite bool_decide_true.
  - unfold load, pickle_load. rewrite lookup_insert_eq, loads_dumps by done.
    unfold __setstate__.
    rewrite bool_decide_false
      by (rewrite not_elem_of_dom; apply lookup_delete_eq).
    by rewrite (right_id_L ∅ (∪)), insert_delete_eq.
  - apply lookup_insert_eq.
  - unfold data_setter, attr. rewrite lookup_insert_ne by done.
    rewrite Hk. cbn -[load_data]. rewrite Hload. cbn. by rewrite Hback.
  - unfold data_setter. by rewrite Hback.
Qed.

End ReloadFacts.

Lemma session_prices_bare_ready :
  ready session_prices_bare adapter_prices ledger_empty ∅.
Proof. split; vm_compute; reflexivity. Qed.

Lemma data_reattached_witness :
  ∃ fs' self1,
    save plain_dumps session_prices_bare "annotator.pkl" ∅ = Ok fs' ∧
    load plain_loads "annotator.pkl" fs' = Ok self1 ∧
    self1 !! "_data" = Some ONone ∧
    data_setter (RawInput prices) self1 = Ok session_prices_bare ∧
    data_setter (AdapterData adapter_prices) self1 = Ok session_prices_bare.
Proof.
  apply (data_reattached plain_dumps plain_loads (λ state _, eq_refl)
           session_prices_bare (OBool false) adapter_prices ledger_empty ∅ prices
           "annotator.pkl" ∅).
  - exact session_prices_bare_ready.
  - vm_compute. reflexivity.
  - reflexivity.
  - apply (bool_decide_unpack _). vm_compute. exact I.
  - vm_compute. reflexivity.
Defined.

(** ** The phrases of a highlighter *)

Section DictFacts.

Context {K V : Type} `{EqDecision K}.

Lemma dict_set_elem (k : K) (v : V) d kv :
  kv ∈ dict_set k v d → kv = (k, v) ∨ kv ∈ d.
Proof.
  induction d as [|[k' v'] d IH]; cbn [dict_set].
  - rewrite list_elem_of_singleton. by left.
  - destruct (decide (k' = k)) as [->|Hne]; rewrite !elem_of_cons.
    + intros [->|Hin]; auto.
    + intros [->|Hin]; [auto|]. destruct (IH Hin); auto.
Qed.

Lemma dict_set_keys (k : K) (v : V) d x :
  x ∈ (dict_set k v d).*1 ↔ x = k ∨ x ∈ d.*1.
Proof.
  induction d as [|[k' v'] d IH]; cbn [dict_set].
  - cbn. rewrite list_elem_of_singleton, elem_of_nil. tauto.
  - destruct (decide (k' = k)) as [->|Hne]; cbn; rewrite !elem_of_cons.
    + tauto.
    + rewrite IH. tauto.
Qed.

Lemma dict_set_NoDup (k : K) (v : V) d :
  NoDup d.*1 → NoDup (dict_set k v d).*1.
Proof.
  induction d as [|[k' v'] d IH]; cbn [dict_set].
  - intros _. cbn. apply NoDup_singleton.
  - cbn. rewrite NoDup_cons. intros [Hk' Hd].
    destruct (decide (k' = k)) as [->|Hne]; cbn; rewrite NoDup_cons.
    + done.
    + split; [|by apply IH]. rewrite dict_set_keys. intros [->|Hin]; done.
Qed.

Lemma dict_set_fresh (k : K) (v : V) d :
  k ∉ d.*1 → dict_set k v d = d ++ [(k, v)].
Proof.
  induction d as [|[k' v'] d IH]; [done|].
  cbn. rewrite not_elem_of_cons. intros [Hne Hk].
  rewrite decide_False by done. by rewrite IH.
Qed.

Lemma dict_of_pairs_from (acc pairs : list (K * V)) :
  (∀ kv, kv ∈ foldl (λ d kv, dict_set kv.1 kv.2 d) acc pairs →
         kv ∈ acc ∨ kv ∈ pairs) ∧
  (∀ x, x ∈ (foldl (λ d kv, dict_set kv.1 kv.2 d) acc pairs).*1 ↔
        x ∈ acc.*1 ∨ x ∈ pairs.*1) ∧
  (NoDup acc.*1 → NoDup (foldl (λ d kv, dict_set kv.1 kv.2 d) acc pairs).*1) ∧
  (NoDup (acc ++ pairs).*1 →
   foldl (λ d kv, dict_set kv.1 kv.2 d) acc pairs = acc ++ pairs).
Proof.
  revert acc. induction pairs as [|[k v] pairs IH]; intros acc.
  - cbn. split_and!; [auto| |done|by rewrite app_nil_r].
    intros x. rewrite elem_of_nil. tauto.
  - cbn [foldl]. destruct (IH (dict_set k v acc)) as (Hin & Hkeys & Hnd & Hfresh).
    split_and!.
    + intros kv Hkv. rewrite elem_of_cons.
      destruct (Hin kv Hkv) as [Hacc|Hp]; [|auto].
      destruct (dict_set_elem _ _ _ _ Hacc); auto.
    + intros x. rewrite Hkeys, dict_set_keys. cbn. rewrite elem_of_cons. tauto.
    + intros Hacc. by apply Hnd, dict_set_NoDup.
    + intros Hall. cbn [fst snd].
      assert (Hk : k ∉ acc.*1).
      { rewrite fmap_app in Hall. apply NoDup_app in Hall as (_ & Hdisj & _).
        intros Hk. apply (Hdisj k Hk). cbn. by left. }
      rewrite dict_set_fresh in * by done.
      rewrite <- app_assoc in *. cbn in *. by apply Hfresh.
Qed.

End DictFacts.

Section HighlighterFacts.

Context {Style : Type}.

Lemma zip_cycle_elem (l : list string) (pending xs : list Style) p s :
  (p, s) ∈ zip_cycle l pending xs → p ∈ l ∧ (s ∈ pending ∨ s ∈ xs).
Proof.
  revert pending. induction l as [|a l IH]; intros pending; cbn [zip_cycle].
  - by rewrite elem_of_nil.
  - destruct pending as [|b pending'].
    + destruct xs as [|b pending'] eqn:Hxs; [by rewrite elem_of_nil|].
      rewrite <- Hxs in *. intros Hin.
      apply elem_of_cons in Hin as [[= -> ->]|Hin].
      * split; [apply elem_of_cons; by left|].
        right. rewrite Hxs. apply elem_of_cons. by left.
      * destruct (IH _ Hin) as [Hp Hs]. split; [apply elem_of_cons; by right|].
        destruct Hs as [Hs|Hs]; [|by right].
        right. rewrite Hxs. apply elem_of_cons. by right.
    + intros Hin. apply elem_of_cons in Hin as [[= -> ->]|Hin].
      * split; [apply elem_of_cons; by left|]. left. apply elem_of_cons. by left.
      * destruct (IH _ Hin) as [Hp Hs]. split; [apply elem_of_cons; by right|].
        destruct Hs as [Hs|Hs]; [|by right]. left. apply elem_of_cons. by right.
Qed.

Lemma zip_cycle_keys (l : list string) (pending xs : list Style) :
  xs ≠ [] → (zip_cycle l pending xs).*1 = l.
Proof.
  intros Hxs. revert pending. induction l as [|a l IH]; intros pending; [done|].
  cbn [zip_cycle]. destruct pending as [|b pending'].
  - destruct xs as [|b pending'] eqn:Heq; [done|]. rewrite <- Heq in *.
    cbn. by rewrite IH.
  - cbn. by rewrite IH.
Qed.

Lemma zip_cycle_nothing (l : list string) : zip_cycle l [] (@nil Style) = [].
Proof. by destruct l. Qed.

Lemma zip_cycle_lookup (l : list string) (xs : list Style) k i p :
  (k ≤ length xs)%nat → xs ≠ [] → l !! i = Some p →
  ∃ s, zip_cycle l (drop k xs) xs !! i = Some (p, s) ∧
       xs !! ((k + i) mod length xs)%nat = Some s.
Proof.
  intros Hk Hxs. revert k i Hk.
  induction l as [|a l IH]; intros k i Hk Hi; [done|].
  assert (Hlen : (0 < length xs)%nat) by (destruct xs; [done|cbn; lia]).
  destruct (decide (k < length xs)%nat) as [Hlt|Hge].
  - destruct (lookup_lt_is_Some_2 xs k Hlt) as [x Hx].
    rewrite (drop_S xs x k Hx). cbn [zip_cycle].
    destruct i as [|i].
    + injection Hi as ->. exists x. split; [done|].
      by rewrite Nat.add_0_r, Nat.mod_small.
    + destruct (IH (S k) i) as (s & Hs & Hmod); [lia|done|].
      exists s. split; [done|]. by rewrite <- Nat.add_succ_comm.
  - assert (k = length xs) as -> by lia.
    rewrite drop_all. cbn [zip_cycle].
    destruct xs as [|b xs'] eqn:Heq; [done|]. rewrite <- Heq in *.
    destruct i as [|i].
    + injection Hi as ->. exists b. split; [done|].
      rewrite Nat.add_0_r, Nat.Div0.mod_same. by rewrite Heq.
    + assert (Hdrop : xs' = drop 1 xs) by (by rewrite Heq).
      rewrite Hdrop.
      destruct (IH 1%nat i) as (s & Hs & Hmod); [lia|done|].
      exists s. split; [done|].
      replace (length xs + S i)%nat with (1 + i + 1 * length xs)%nat by lia.
      by rewrite Nat.Div0.mod_add.
Qed.

(** X18.  Phrases that are all different are styled in turn: the
    dictionary of the highlighter lists them in the order given, and the
    phrase at position i gets the style at position i modulo the number
    of styles, the styles starting over when they run out. *)
Theorem phrases_styled_in_turn (highlight : list Style) phrases :
  highlight ≠ [] →
  phrases ≠ PhrasesNone →
  NoDup (phrase_list phrases) →
  ∃ d,
    phrases_setter highlight phrases = Some d ∧
    d.*1 = phrase_list phrases ∧
    ∀ (i : nat) p,
      phrase_list phrases !! i = Some p →
      ∃ s, d !! i = Some (p, s) ∧
           highlight !! (i mod length highlight)%nat = Some s.
Proof.
  intros Hh Hp Hnd.
  assert (Hgen : ∀ l : list string, NoDup l →
            dict_of_pairs (zip_cycle l highlight highlight)
            = zip_cycle l highlight highlight).
  { intros l Hl. unfold dict_of_pairs.
    destruct (dict_of_pairs_from [] (zip_cycle l highlight highlight))
      as (_ & _ & _ & Hfresh).
    apply Hfresh. cbn. by rewrite zip_cycle_keys. }
  assert (Hmain : ∀ l : list string, NoDup l →
            ∃ d, Some (dict_of_pairs (zip_cycle l highlight highlight)) = Some d ∧
                 d.*1 = l ∧
                 ∀ (i : nat) p, l !! i = Some p →
                   ∃ s, d !! i = Some (p, s) ∧
                        highlight !! (i mod length highlight)%nat = Some s).
  { intros l Hl. exists (zip_cycle l highlight highlight).
    split_and!.
    - by rewrite Hgen.
    - by apply zip_cycle_keys.
    - intros i p Hi.
      destruct (zip_cycle_lookup l highlight 0 i p) as (s & Hs & Hmod);
        [lia|done|done|].
      exists s. by rewrite drop_0 in Hs. }
  destruct phrases as [|s|l|m]; [done| | |]; cbn [phrases_setter phrase_list] in *;
    by apply Hmain.
Qed.

(** X19.  Whatever the phrases are, the dictionary of the highlighter
    has each phrase once, has no phrase that was not given, and maps
    every phrase to one of the configured styles: the styles that a
    mapping brings are not used.  With at least one configured style
    every phrase given is in it; with none it is empty. *)
Theorem phrases_styles_configured (highlight : list Style) phrases d :
  phrases_setter highlight phrases = Some d →
  NoDup d.*1 ∧
  (∀ p s, (p, s) ∈ d → p ∈ phrase_list phrases ∧ s ∈ highlight) ∧
  (highlight ≠ [] → ∀ p, p ∈ phrase_list phrases → p ∈ d.*1) ∧
  (highlight = [] → d = []).
Proof.
  assert (Hmain : ∀ l : list string,
            let d := dict_of_pairs (zip_cycle l highlight highlight) in
            NoDup d.*1 ∧
            (∀ p s, (p, s) ∈ d → p ∈ l ∧ s ∈ highlight) ∧
            (highlight ≠ [] → ∀ p, p ∈ l → p ∈ d.*1) ∧
            (highlight = [] → d = [])).
  { intros l d0. subst d0. unfold dict_of_pairs.
    destruct (dict_of_pairs_from [] (zip_cycle l highlight highlight))
      as (Hin & Hkeys & Hnd & _).
    split_and!.
    - apply Hnd. constructor.
    - intros p s Hps. destruct (Hin _ Hps) as [Hnil|Hz].
      + by apply elem_of_nil in Hnil.
      + apply zip_cycle_elem in Hz. tauto.
    - intros Hh p Hp. apply Hkeys. right. by rewrite zip_cycle_keys.
    - intros ->. by rewrite zip_cycle_nothing. }
  intros Hd. destruct phrases as [|s|l|m]; [done| | |];
    unfold phrases_setter in Hd; injection Hd as <-.
  - exact (Hmain [s]).
  - exact (Hmain l).
  - exact (Hmain m.*1).
Qed.

End HighlighterFacts.

Lemma phrases_styled_in_turn_witness :
  ∃ d,
    phrases_setter ["yellow"; "pink"] (PhrasesList ["tax"; "levy"; "duty"])
    = Some d ∧
    d.*1 = phrase_list (PhrasesList (Style := string) ["tax"; "levy"; "duty"]) ∧
    ∀ (i : nat) p,
      phrase_list (PhrasesList (Style := string) ["tax"; "levy"; "duty"]) !! i
      = Some p →
      ∃ s, d !! i = Some (p, s) ∧
           ["yellow"; "pink"] !! (i mod length ["yellow"; "pink"])%nat = Some s.
Proof.
  apply (phrases_styled_in_turn ["yellow"; "pink"]
           (PhrasesList ["tax"; "levy"; "duty"])).
  - discriminate.
  - discriminate.
  - apply (bool_decide_unpack _). vm_compute. exact I.
Defined.

Lemma phrases_styles_configured_witness :
  let d := [("tax", "yellow"); ("levy", "pink")] in
  NoDup d.*1 ∧
  (∀ p s, (p, s) ∈ d →
     p ∈ phrase_list (PhrasesDict [("tax", "green"); ("levy", "green")]) ∧
     s ∈ ["yellow"; "pink"]) ∧
  (["yellow"; "pink"] ≠ [] →
   ∀ p, p ∈ phrase_list (PhrasesDict [("tax", "green"); ("levy", "green")]) →
        p ∈ d.*1) ∧
  (["yellow"; "pink"] = [] → d = []).
Proof.
  apply (phrases_styles_configured ["yellow"; "pink"]
           (PhrasesDict [("tax", "green"); ("levy", "green")])).
  vm_compute. reflexivity.
Defined.
